(** * mm12_gene_abundance: gene abundance of an MM12 community

    A shallow embedding of [scripts/mm12_gene_abundance.py].  The script reads
    a strain-by-sample table of relative abundances and one annotation file
    per strain, spreads every strain's abundance evenly over its annotation
    rows and accumulates the shares per (sample, identifier).

    Conventions of the embedding:
    - a text file is the list of its lines as [readlines()] yields them;
    - the annotations directory is the list of paths [glob.glob] returns for
      it, each with its file;
    - a Python [dict] is an association list in insertion order;
    - a raised exception is a value of [result];
    - Python's [float] is an instance of the interface [PyFloat]: the
      development is generic in it, and [float64] is the IEEE binary64
      arithmetic that the script runs on. *)

From Stdlib Require Import String Ascii List Bool Arith PeanoNat Lia.
From Stdlib Require Import Permutation ZArith Floats Uint63.
Import ListNotations.

#[local] Open Scope nat_scope.
#[local] Open Scope string_scope.
#[local] Open Scope list_scope.

(** ** Python strings *)

Module Str.

Definition tab : ascii := ascii_of_nat 9.
Definition newline : ascii := ascii_of_nat 10.
Definition underscore : ascii := ascii_of_nat 95.
Definition slash : ascii := ascii_of_nat 47.

(** [s.split(sep)] for a one-character separator: always at least one
    field, an empty string gives one empty field. *)
Fixpoint split (sep : ascii) (s : string) : list string :=
  match s with
  | EmptyString => [EmptyString]
  | String c s' =>
      if Ascii.eqb c sep then EmptyString :: split sep s'
      else match split sep s' with
           | [] => [String c EmptyString]
           | f :: fs => String c f :: fs
           end
  end.

Fixpoint lstrip (c : ascii) (s : string) : string :=
  match s with
  | EmptyString => EmptyString
  | String a s' => if Ascii.eqb a c then lstrip c s' else s
  end.

Fixpoint rstrip (c : ascii) (s : string) : string :=
  match s with
  | EmptyString => EmptyString
  | String a s' =>
      match rstrip c s' with
      | EmptyString => if Ascii.eqb a c then EmptyString else String a EmptyString
      | r => String a r
      end
  end.

(** [s.strip(c)] for a one-character set. *)
Definition strip (c : ascii) (s : string) : string := rstrip c (lstrip c s).

(** [s.replace(old, new)] for a non-empty [old]: the occurrences of [old]
    are found from the left and do not overlap.  [skip] counts the
    characters of a found occurrence that are still to be dropped. *)
Fixpoint replace_from (old new : string) (skip : nat) (s : string) : string :=
  match s with
  | EmptyString => EmptyString
  | String c s' =>
      match skip with
      | S k => replace_from old new k s'
      | O =>
          if String.prefix old s
          then String.append new (replace_from old new (String.length old - 1) s')
          else String c (replace_from old new 0 s')
      end
  end.

Definition replace (old new s : string) : string := replace_from old new 0 s.

(** [os.path.basename(p)]: what follows the last slash. *)
Definition basename (p : string) : string := last (split slash p) EmptyString.

(** [tab.join(fields) + newline], to write the lines of input files. *)
Fixpoint join (sep : ascii) (fields : list string) : string :=
  match fields with
  | [] => EmptyString
  | [f] => f
  | f :: fs => String.append f (String sep (join sep fs))
  end.

Definition line (fields : list string) : string :=
  String.append (join tab fields) (String newline EmptyString).

(** The text before the first [c] (all of [s] when it has none). *)
Fixpoint before (c : ascii) (s : string) : string :=
  match s with
  | EmptyString => EmptyString
  | String a s' => if Ascii.eqb a c then EmptyString else String a (before c s')
  end.

(** The number of occurrences of [c]. *)
Fixpoint count (c : ascii) (s : string) : nat :=
  match s with
  | EmptyString => 0
  | String a s' => (if Ascii.eqb a c then 1 else 0) + count c s'
  end.

End Str.

(** ** Exceptions *)

Inductive exn : Type :=
| IndexError
| ValueError
| AssertionError
| ZeroDivisionError
| FileNotFoundError
| SystemExit.

Inductive result (A : Type) : Type :=
| Ok (a : A)
| Raise (e : exn).

Arguments Ok {A} a.
Arguments Raise {A} e.

Definition bind {A B : Type} (r : result A) (k : A -> result B) : result B :=
  match r with
  | Ok a => k a
  | Raise e => Raise e
  end.

Notation "x <- r ;; k" := (bind r (fun x => k))
  (at level 61, r at next level, right associativity).

(** A [for] loop whose body may raise: the state is threaded from left to
    right and the first exception ends the loop. *)
Fixpoint for_each {A S : Type} (body : S -> A -> result S) (l : list A) (s : S)
  : result S :=
  match l with
  | [] => Ok s
  | x :: l' => s' <- body s x ;; for_each body l' s'
  end.

(** [l[i]] *)
Definition index {A : Type} (l : list A) (i : nat) : result A :=
  match nth_error l i with
  | Some x => Ok x
  | None => Raise IndexError
  end.

(** ** Python dictionaries, in insertion order *)

Abbreviation dict V := (list (string * V)) (only parsing).

Fixpoint dict_get {V : Type} (d : dict V) (k : string) : option V :=
  match d with
  | [] => None
  | (k', v) :: d' => if String.eqb k' k then Some v else dict_get d' k
  end.

(** [d[k] = v]: a present key keeps its place, a new key goes last. *)
Fixpoint dict_set {V : Type} (d : dict V) (k : string) (v : V) : dict V :=
  match d with
  | [] => [(k, v)]
  | (k', v') :: d' =>
      if String.eqb k' k then (k, v) :: d' else (k', v') :: dict_set d' k v
  end.

Definition keys {V : Type} (d : dict V) : list string := map fst d.
Definition values {V : Type} (d : dict V) : list V := map snd d.

(** [d[k]] on a [defaultdict]: a missing key reads as the default. *)
Definition dict_default {V : Type} (default : V) (d : dict V) (k : string) : V :=
  match dict_get d k with
  | Some v => v
  | None => default
  end.

(** [d[k1][k2]] as a lookup that may miss, and [d[k1][k2] = v] on a
    [defaultdict(dict)]. *)
Definition dict_get2 {V : Type} (d : dict (dict V)) (k1 k2 : string) : option V :=
  dict_get (dict_default [] d k1) k2.

Definition dict_set2 {V : Type} (d : dict (dict V)) (k1 k2 : string) (v : V)
  : dict (dict V) :=
  dict_set d k1 (dict_set (dict_default [] d k1) k2 v).

(** [d[k].append(x)] on a [defaultdict(list)]. *)
Definition dict_append {V : Type} (d : dict (list V)) (k : string) (x : V)
  : dict (list V) :=
  dict_set d k (dict_default [] d k ++ [x]).

(** ** Files *)

(** The lines of a text file, each with its end of line. *)
Abbreviation file := (list string) (only parsing).

(** The first [readline()] on a freshly opened file, and the [readlines()]
    that follows it. *)
Definition readline (f : file) : string := hd EmptyString f.
Definition readlines_after_first (f : file) : list string := tl f.

(** What [glob.glob(annotations_dir + "/*.tsv")] returns, with the file
    behind each path. *)
Abbreviation directory := (list (string * list string)) (only parsing).

Definition open (d : directory) (path : string) : result file :=
  match dict_get d path with
  | Some f => Ok f
  | None => Raise FileNotFoundError
  end.

(** ** read_relab *)

Definition fields (l : string) : list string :=
  Str.split Str.tab (Str.strip Str.newline l).

Definition read_relab_line (samples : list string) (sample_dict : dict (dict string))
  (l : string) : result (dict (dict string)) :=
  let data := fields l in
  strain <- index data 0 ;;
  for_each
    (fun sample_dict i =>
       sample <- index samples i ;;
       value <- index data i ;;
       Ok (dict_set2 sample_dict sample strain value))
    (seq 1 (List.length samples - 1)) sample_dict.

Definition read_relab (relab_file : file) : result (dict (dict string)) :=
  let samples := fields (readline relab_file) in
  for_each (read_relab_line samples) (readlines_after_first relab_file) [].

(** A data row with a field for every column of the header. *)
Definition wide_enough (samples : list string) (l : string) : Prop :=
  List.length samples <= List.length (fields l).

(** ** Annotation *)

Record Annotation : Type := mkAnnotation {
  locus_tag : string;
  ftype : string;
  length : string;
  gene : string;
  ec : string;
  cog : string;
  product : string
}.

Definition or_placeholder (value placeholder : string) : string :=
  if String.eqb value "" then placeholder else value.

(** [Annotation.__init__] *)
Definition Annotation_init (locus_tag ftype length gene ec cog product : string)
  : Annotation :=
  let gene := or_placeholder gene "unannotated_gene" in
  let gene :=
    if Nat.eqb (List.length (Str.split Str.underscore gene)) 2
    then nth 0 (Str.split Str.underscore gene) EmptyString
    else gene in
  mkAnnotation locus_tag ftype length gene
    (or_placeholder ec "unannotated_ec")
    (or_placeholder cog "unannotated_cog")
    (or_placeholder product "unannotated_gene_product").

(** ** build_annotation *)

Definition annotation_types : list string := ["gene"; "ko"; "cog"].

Definition member (x : string) (l : list string) : bool :=
  existsb (String.eqb x) l.

Arguments member : simpl never.

(** The [Annotation] of one line: [data[0]] to [data[6]]. *)
Definition annotation_of_fields (data : list string) : result Annotation :=
  d0 <- index data 0 ;;
  d1 <- index data 1 ;;
  d2 <- index data 2 ;;
  d3 <- index data 3 ;;
  d4 <- index data 4 ;;
  d5 <- index data 5 ;;
  d6 <- index data 6 ;;
  Ok (Annotation_init d0 d1 d2 d3 d4 d5 d6).

Definition annotation_of_line (l : string) : result Annotation :=
  annotation_of_fields (fields l).

Definition build_annotation_line (strain annotation_type : string)
  (annotations : dict (list string)) (l : string) : result (dict (list string)) :=
  annotation <- annotation_of_line l ;;
  if String.eqb annotation_type "gene"
  then Ok (dict_append annotations strain (gene annotation))
  else if String.eqb annotation_type "ko"
  then Ok (dict_append annotations strain (ec annotation))
  else if String.eqb annotation_type "cog"
  then Ok (dict_append annotations strain (cog annotation))
  else Ok annotations.

Definition build_annotation (files : directory) (infile annotation_type : string)
  : result (dict (list string)) :=
  if member annotation_type annotation_types
  then
    let strain := Str.replace ".tsv" "" (Str.basename infile) in
    contents <- open files infile ;;
    for_each (build_annotation_line strain annotation_type) contents []
  else Raise AssertionError.

(** ** get_number_of_genes *)

Definition get_number_of_genes (annotations : dict (list string)) : result nat :=
  first <- index (values annotations) 0 ;;
  Ok (List.length first).

(** ** check_files *)

(** The loop of [check_files] over the data lines; the result is the list of
    warnings sent to the log.  The loop ends at its first warning. *)
Fixpoint check_files_loop (annotation_files : list string) (lines : list string)
  : list string :=
  match lines with
  | [] => []
  | l :: rest =>
      let strain := hd EmptyString (fields l) in
      if member strain annotation_files
      then check_files_loop annotation_files rest
      else [String.append "strain " (String.append strain " annotation file not found")]
  end.

Definition check_files (relab_file : file) (glob_result : list string) : list string :=
  let annotation_files := map (Str.replace ".tsv" "") glob_result in
  check_files_loop annotation_files (readlines_after_first relab_file).


(** ** Python floats *)

(** What the script asks of [float]: [float(s)] on a string ([None] stands
    for [ValueError]), [float(n)] on a count, [+] and [/], and whether a
    value is the missing-value marker of a data frame. *)
Class PyFloat : Type := {
  num : Type;
  float_of_str : string -> option num;
  float_of_int : nat -> num;
  fadd : num -> num -> num;
  fdiv : num -> num -> num;
  is_nan : num -> bool
}.

(** *** [float(s)] on doubles

    A string is read as Python reads it: blanks are dropped at both ends,
    then comes an optional sign, then [inf], [infinity] or [nan] in any
    case, or a decimal number with an optional exponent; an underscore may
    stand between two digits.  Anything else is a [ValueError]. *)

Definition digit (c : ascii) : option Z :=
  let n := nat_of_ascii c in
  if Nat.leb 48 n && Nat.leb n 57 then Some (Z.of_nat (n - 48)) else None.

(** The blanks of [float]: tab, line feed, vertical tab, form feed, carriage
    return and space. *)
Definition is_space (c : ascii) : bool :=
  let n := nat_of_ascii c in
  (Nat.leb 9 n && Nat.leb n 13) || Nat.eqb n 32.

Fixpoint lstrip_space (s : string) : string :=
  match s with
  | String c s' => if is_space c then lstrip_space s' else s
  | EmptyString => EmptyString
  end.

Fixpoint rstrip_space (s : string) : string :=
  match s with
  | String c s' =>
      match rstrip_space s' with
      | EmptyString => if is_space c then EmptyString else String c EmptyString
      | r => String c r
      end
  | EmptyString => EmptyString
  end.

Definition lower (c : ascii) : ascii :=
  let n := nat_of_ascii c in
  if Nat.leb 65 n && Nat.leb n 90 then ascii_of_nat (n + 32) else c.

Fixpoint lowercase (s : string) : string :=
  match s with
  | String c s' => String (lower c) (lowercase s')
  | EmptyString => EmptyString
  end.

Definition starts_with_digit (s : string) : bool :=
  match s with
  | String c _ => match digit c with Some _ => true | None => false end
  | EmptyString => false
  end.

(** The digits at the start of [s], with single underscores between them:
    the number they spell after those of [acc], how many they are, and what
    follows them. *)
Fixpoint digitpart (acc : Z) (n : nat) (s : string) : Z * nat * string :=
  match s with
  | EmptyString => (acc, n, s)
  | String c s' =>
      match digit c with
      | Some d => digitpart (10 * acc + d) (S n) s'
      | None =>
          if Ascii.eqb c "_" && Nat.ltb 0 n && starts_with_digit s'
          then digitpart acc n s'
          else (acc, n, s)
      end
  end.

Definition sign (s : string) : bool * string :=
  match s with
  | String "-" s' => (true, s')
  | String "+" s' => (false, s')
  | _ => (false, s)
  end.

(** An unsigned number [digits], [digits.], [.digits] or [digits.digits]
    with an optional exponent [e], [e+] or [e-] and digits, as the pair
    [(m, k)] that stands for [m * 10 ^ k]. *)
Definition floatnumber (s : string) : option (Z * Z) :=
  let '(i, ni, rest) := digitpart 0 0 s in
  let '(m, nf, rest') :=
    match rest with
    | String "." r => digitpart i 0 r
    | _ => (i, 0, rest)
    end in
  if Nat.eqb (ni + nf) 0 then None
  else
    match rest' with
    | EmptyString => Some (m, (- Z.of_nat nf)%Z)
    | String c r =>
        if Ascii.eqb (lower c) "e"
        then
          let '(negative, r1) := sign r in
          let '(x, nx, r2) := digitpart 0 0 r1 in
          if Nat.eqb nx 0 || negb (String.eqb r2 "") then None
          else Some (m, ((if negative then - x else x) - Z.of_nat nf)%Z)
        else None
    end.

(** The double of an integer, digit by digit from the leading bit: every
    step is exact as long as the bits read so far fit the 53 bits of a
    double, so the result is exact for every integer up to 2^53. *)
Fixpoint float_of_pos (p : positive) : float :=
  match p with
  | xH => PrimFloat.one
  | xO q => PrimFloat.mul PrimFloat.two (float_of_pos q)
  | xI q => PrimFloat.add (PrimFloat.mul PrimFloat.two (float_of_pos q)) PrimFloat.one
  end.

Definition float_of_Z (z : Z) : float :=
  match z with
  | Z0 => PrimFloat.zero
  | Zpos p => float_of_pos p
  | Zneg p => PrimFloat.opp (float_of_pos p)
  end.

(** The double nearest to [n / d] for positive [n] and [d], ties to the even
    one, infinity past the largest double.  [e] is the exponent of the last
    bit of the result: the quotient by [2 ^ e] has 53 bits, or fewer at the
    bottom of the range; it is rounded to an integer [q'], and [q' * 2 ^ e]
    is a double. *)
Definition round_ratio (n d : Z) : float :=
  let e0 := (Z.log2 n - Z.log2 d - 52)%Z in
  let below :=
    if (0 <=? e0)%Z then (n <? d * 2 ^ (e0 + 52))%Z
    else (n * 2 ^ (- e0) <? d * 2 ^ 52)%Z in
  let e := Z.max (if below then e0 - 1 else e0) (-1074) in
  let num := if (0 <=? e)%Z then n else (n * 2 ^ (- e))%Z in
  let den := if (0 <=? e)%Z then (d * 2 ^ e)%Z else d in
  let q := (num / den)%Z in
  let r := (num mod den)%Z in
  let q' := if (den <? 2 * r)%Z || ((den =? 2 * r)%Z && Z.odd q) then (q + 1)%Z else q in
  if (971 <? e)%Z then PrimFloat.infinity else Z.ldexp (float_of_Z q') e.

(** The double nearest to [m * 10 ^ k] for [m] not negative.  The second
    and third tests answer without the power of ten where it is out of
    range: past 10^310 the value is above every double, and it rounds to
    zero where [8 ^ (- k)] alone brings it under 2^(-1076). *)
Definition round_decimal (m k : Z) : float :=
  if (m =? 0)%Z then PrimFloat.zero
  else if (310 <? k)%Z then PrimFloat.infinity
  else if (Z.log2 m + 1077 <=? 3 * - k)%Z then PrimFloat.zero
  else if (0 <=? k)%Z then round_ratio (m * 10 ^ k) 1
  else round_ratio m (10 ^ (- k)).

(** [float(s)] for a string of ASCII characters. *)
Definition float_of_string (s : string) : option float :=
  let '(negative, body) := sign (rstrip_space (lstrip_space s)) in
  let signed := fun x : float => if negative then PrimFloat.opp x else x in
  let word := lowercase body in
  if String.eqb word "inf" || String.eqb word "infinity"
  then Some (signed PrimFloat.infinity)
  else if String.eqb word "nan" then Some PrimFloat.nan
  else
    match floatnumber body with
    | Some (m, k) => Some (signed (round_decimal m k))
    | None => None
    end.

(** IEEE binary64, the arithmetic the script runs on.  [float_of_str] is
    Python's [float] on strings of ASCII characters, correctly rounded, with
    infinity past the largest double; a string with a character outside
    ASCII is not read (Python also takes the digits and blanks of other
    scripts).  [float_of_int] is exact up to 2^53, more rows than a file
    holds. *)
#[export] Instance float64 : PyFloat := {|
  num := float;
  float_of_str := float_of_string;
  float_of_int := fun n => float_of_Z (Z.of_nat n);
  fadd := PrimFloat.add;
  fdiv := PrimFloat.div;
  is_nan := PrimFloat.is_nan
|}.

(** ** main *)

(** A written table, as fields: the header line, and the rows, each with its
    label and its cells; an empty cell is [None]. *)
Record table (N : Type) : Type := mkTable {
  header : list string;
  rows : list (string * list (option N))
}.

Arguments mkTable {N} header rows.
Arguments header {N} t.
Arguments rows {N} t.

Section Main.

Context {F : PyFloat}.

(** [float(relab)/float(ngenes)] *)
Definition share (relab : string) (ngenes : nat) : result num :=
  match float_of_str relab with
  | None => Raise ValueError
  | Some r =>
      if Nat.eqb ngenes 0 then Raise ZeroDivisionError
      else Ok (fdiv r (float_of_int ngenes))
  end.

(** The body of the loop over the identifiers of one strain: the [try]
    reads [gene_relabs[sample][g]] first, and its [KeyError] leads to the
    [except] branch. *)
Definition add_gene (sample relab : string) (ngenes : nat)
  (gene_relabs : dict (dict num)) (g : string) : result (dict (dict num)) :=
  if String.eqb g "gene" then Ok gene_relabs
  else
    match dict_get2 gene_relabs sample g with
    | Some total =>
        s <- share relab ngenes ;;
        Ok (dict_set2 gene_relabs sample g (fadd total s))
    | None =>
        s <- share relab ngenes ;;
        Ok (dict_set2 gene_relabs sample g s)
    end.

(** [[x for x in annotation_files
      if os.path.basename(x).replace(".tsv", "") == strain][0]] *)
Definition strain_of_path (x : string) : string :=
  Str.replace ".tsv" "" (Str.basename x).

Definition find_annotation (annotation_files : list string) (strain : string)
  : result string :=
  index (filter (fun x => String.eqb (strain_of_path x) strain) annotation_files) 0.

(** The body of the loop over the strains of one sample. *)
Definition strain_step (annotations_dir : directory) (annotation_type sample : string)
  (gene_relabs : dict (dict num)) (entry : string * string)
  : result (dict (dict num)) :=
  let '(strain, relab) := entry in
  path <- find_annotation (keys annotations_dir) strain ;;
  annotation <- build_annotation annotations_dir path annotation_type ;;
  ngenes <- get_number_of_genes annotation ;;
  genes <- index (values annotation) 0 ;;
  for_each (add_gene sample relab ngenes) genes gene_relabs.

(** The body of the loop over the samples. *)
Definition sample_step (annotations_dir : directory) (annotation_type : string)
  (gene_relabs : dict (dict num)) (entry : string * dict string)
  : result (dict (dict num)) :=
  let '(sample, strain_relab) := entry in
  for_each (strain_step annotations_dir annotation_type sample) strain_relab gene_relabs.

(** The two nested loops of [main] that fill [gene_relabs]. *)
Definition main_loop (relab : dict (dict string)) (annotations_dir : directory)
  (annotation_type : string) : result (dict (dict num)) :=
  for_each (sample_step annotations_dir annotation_type) relab [].

(** *** The written table

    [pd.DataFrame(gene_relabs)] has one column per key of [gene_relabs] and
    one row per key of the inner dictionaries, a missing pair being NaN;
    [to_csv(sep=tab, index_label=...)] writes the index label and the column
    names, then each row with NaN as an empty cell.  The table is kept as
    fields, before they are joined into text: a cell is [None] when it is
    written empty, and the text of a number is left to Python. *)


Definition add_new (seen : list string) (k : string) : list string :=
  if member k seen then seen else seen ++ [k].

(** The row labels: the keys of the inner dictionaries, each once, in the
    order of their first appearance. *)
Definition DataFrame_index (gene_relabs : dict (dict num)) : list string :=
  fold_left add_new (flat_map keys (values gene_relabs)) [].

Definition cell (gene_relabs : dict (dict num)) (id sample : string) : option num :=
  match dict_get2 gene_relabs sample id with
  | Some v => if is_nan v then None else Some v
  | None => None
  end.

Definition to_csv (gene_relabs : dict (dict num)) (index_label : string) : table num :=
  mkTable (index_label :: keys gene_relabs)
    (map (fun id => (id, map (cell gene_relabs id) (keys gene_relabs)))
       (DataFrame_index gene_relabs)).

(** The command line, after parsing: the files behind [--relab] and
    [--annotations-dir], and [--annotation-type]. *)
Record args : Type := mkArgs {
  relab : file;
  annotations_dir : directory;
  annotation_type : string
}.

(** [main]: the warnings of [check_files] and the written table.  The
    argument parser ends the run on an annotation type outside its choices. *)
Definition main (a : args) : result (list string * table num) :=
  if member (annotation_type a) annotation_types
  then
    let warnings := check_files (relab a) (keys (annotations_dir a)) in
    relab <- read_relab (relab a) ;;
    gene_relabs <- main_loop relab (annotations_dir a) (annotation_type a) ;;
    Ok (warnings, to_csv gene_relabs "gene")
  else Raise SystemExit.

End Main.

(** ** The scenario of the documentation *)

Definition annotation_line (g : string) : string :=
  Str.line ["LHNLDECA_00001"; "CDS"; "1368"; g; "5.1.1.1"; "COG0787"; "Alanine racemase"].

Definition scenario : args := mkArgs
  [Str.line ["strain"; "sample1"]; Str.line ["KB1"; "0.6"]; Str.line ["YL32"; "0.4"]]
  [("annotations/KB1.tsv", [annotation_line "alr"; annotation_line "alr"; annotation_line "luxS"]);
   ("annotations/YL32.tsv", [annotation_line "luxS"])]
  "gene".

(** The scenario, as [read_relab] reads its abundance table. *)
Definition scenario_relab : dict (dict string) :=
  [("sample1", [("KB1", "0.6"); ("YL32", "0.4")])].

(** An abundance table that names KB1 twice. *)
Definition relab_with_duplicate : file :=
  [Str.line ["strain"; "sample1"; "sample2"];
   Str.line ["KB1"; "0.1"; "0.2"];
   Str.line ["YL32"; "0.4"; "0.5"];
   Str.line ["KB1"; "0.6"; "0.7"];
   Str.line ["I46"; "0.3"; "0.1"]].

(** Three strains with one row each, and the same abundance table with its
    strains in two orders. *)
Definition three_strains : directory :=
  [("annotations/KB1.tsv", [annotation_line "alr"]);
   ("annotations/YL32.tsv", [annotation_line "alr"]);
   ("annotations/I46.tsv", [annotation_line "alr"])].

Definition relab_ascending : file :=
  [Str.line ["strain"; "sample1"];
   Str.line ["KB1"; "0.1"]; Str.line ["YL32"; "0.2"]; Str.line ["I46"; "0.3"]].

Definition relab_descending : file :=
  [Str.line ["strain"; "sample1"];
   Str.line ["I46"; "0.3"]; Str.line ["YL32"; "0.2"]; Str.line ["KB1"; "0.1"]].

(** The scenario with a second sample, then with its samples in another
    order, with the strains of each sample in another order, and with the
    rows of the annotation file of KB1 in another order. *)
Definition two_samples : dict (dict string) :=
  [("sample1", [("KB1", "0.6"); ("YL32", "0.4")]);
   ("sample2", [("KB1", "0.2"); ("YL32", "0.8")])].

Definition two_samples_swapped : dict (dict string) :=
  [("sample2", [("KB1", "0.2"); ("YL32", "0.8")]);
   ("sample1", [("KB1", "0.6"); ("YL32", "0.4")])].

Definition two_samples_strains_swapped : dict (dict string) :=
  [("sample1", [("YL32", "0.4"); ("KB1", "0.6")]);
   ("sample2", [("YL32", "0.8"); ("KB1", "0.2")])].

Definition scenario_rows_moved : directory :=
  [("annotations/KB1.tsv", [annotation_line "luxS"; annotation_line "alr"; annotation_line "alr"]);
   ("annotations/YL32.tsv", [annotation_line "luxS"])].

(** An annotation file that starts with the header row of the annotation
    tool. *)
Definition header_row : string :=
  Str.line ["locus_tag"; "ftype"; "length_bp"; "gene"; "EC_number"; "COG"; "product"].

Definition with_header : directory :=
  [("annotations/KB1.tsv", [header_row; annotation_line "alr"])].

Definition KB1_only : dict (dict string) := [("sample1", [("KB1", "0.6")])].

(** The directory of the scenario with no row in the file of YL32. *)
Definition YL32_empty : directory :=
  [("annotations/KB1.tsv", [annotation_line "alr"]); ("annotations/YL32.tsv", [])].

(** ** The identifiers of a file, row by row *)

(** The field of a record that [build_annotation] keeps for an accepted
    annotation type: [ko] reads the EC number. *)
Definition identifier (annotation_type : string) (a : Annotation) : string :=
  if String.eqb annotation_type "gene" then gene a
  else if String.eqb annotation_type "ko" then ec a
  else cog a.

(** One identifier per row, in the order of the file; the first row that
    does not parse raises. *)
Fixpoint identifiers (annotation_type : string) (contents : list string)
  : result (list string) :=
  match contents with
  | [] => Ok []
  | l :: rest =>
      a <- annotation_of_line l ;;
      ids <- identifiers annotation_type rest ;;
      Ok (identifier annotation_type a :: ids)
  end.

(** ** The shares of an identifier

    What the loops of [main] add up, read off per sample and identifier. *)

Section Shares.

Context {F : PyFloat}.

(** The identifier list of a strain, as an iteration of [main] loads it:
    the file found for the strain, parsed, its one list of identifiers. *)
Definition strain_annotation (annotations_dir : directory)
  (annotation_type strain : string) : result (list string) :=
  path <- find_annotation (keys annotations_dir) strain ;;
  annotation <- build_annotation annotations_dir path annotation_type ;;
  index (values annotation) 0.

Definition occurrences (g : string) (genes : list string) : nat :=
  count_occ string_dec genes g.

(** The shares one strain of a sample adds to the identifier [g]: its
    abundance over its number of rows, once per occurrence of [g]. *)
Definition strain_shares (annotations_dir : directory) (annotation_type g : string)
  (entry : string * string) : list num :=
  match strain_annotation annotations_dir annotation_type (fst entry) with
  | Ok genes =>
      match share (snd entry) (List.length genes) with
      | Ok s => repeat s (occurrences g genes)
      | Raise _ => []
      end
  | Raise _ => []
  end.

(** The shares of [g] in a sample, strain after strain in the order of the
    abundance table. *)
Definition sample_shares (annotations_dir : directory) (annotation_type : string)
  (relab : dict (dict string)) (sample g : string) : list num :=
  flat_map (strain_shares annotations_dir annotation_type g)
    (dict_default [] relab sample).

(** The shares of [g] in [sample], over every entry of the table that
    carries the sample. *)
Definition selected_shares (annotations_dir : directory) (annotation_type : string)
  (relab : dict (dict string)) (sample g : string) : list num :=
  flat_map (fun e : string * dict string =>
              if String.eqb (fst e) sample
              then flat_map (strain_shares annotations_dir annotation_type g) (snd e)
              else []) relab.

(** Adding a share to an entry that may be missing, and the total of a list
    of shares added from the left; no share, no entry. *)
Definition added (entry : option num) (s : num) : num :=
  match entry with
  | Some total => fadd total s
  | None => s
  end.

Definition add_share (entry : option num) (s : num) : option num :=
  Some (added entry s).

Definition add_shares (entry : option num) (shares : list num) : option num :=
  fold_left add_share shares entry.

Definition total (shares : list num) : option num := add_shares None shares.

(** The pairs (strain, abundance) on which an iteration goes through: the
    annotation of the strain loads, and its abundance is a number unless
    every identifier is skipped. *)
Definition pair_ok (annotations_dir : directory) (annotation_type : string)
  (entry : string * string) : Prop :=
  match strain_annotation annotations_dir annotation_type (fst entry) with
  | Ok genes =>
      Forall (fun g => g = "gene") genes
      \/ exists s, share (snd entry) (List.length genes) = Ok s
  | Raise _ => False
  end.

Definition pairs_ok (annotations_dir : directory) (annotation_type : string)
  (relab : dict (dict string)) : Prop :=
  Forall (fun sample_entry => Forall (pair_ok annotations_dir annotation_type)
                                (snd sample_entry)) relab.

End Shares.

(** Whether some strain of the sample has [g] in its annotation list. *)
Definition listed (annotations_dir : directory) (annotation_type g : string)
  (entry : string * string) : bool :=
  match strain_annotation annotations_dir annotation_type (fst entry) with
  | Ok genes => member g genes
  | Raise _ => false
  end.

Definition observed (annotations_dir : directory) (annotation_type : string)
  (relab : dict (dict string)) (sample g : string) : bool :=
  existsb (listed annotations_dir annotation_type g) (dict_default [] relab sample).

(** Two directories with the same paths whose files hold the same rows in
    another order, and two abundance tables with the same samples in the
    same order whose strains come in another order. *)
Definition rows_permuted (d d' : directory) : Prop :=
  Forall2 (fun f f' => fst f = fst f' /\ Permutation (snd f) (snd f')) d d'.

Definition strains_permuted (relab relab' : dict (dict string)) : Prop :=
  Forall2 (fun e e' => fst e = fst e' /\ Permutation (snd e) (snd e')) relab relab'.

(** Two tables of totals with the same entries. *)
Definition same_totals {F : PyFloat} (t t' : dict (dict num)) : Prop :=
  forall sample g, dict_get2 t sample g = dict_get2 t' sample g.

(** ** The samples of the result *)

(** What the loops keep of [gene_relabs]: no sample twice, samples of the
    abundance table only, and no sample without a total. *)
Definition well_kept {F : PyFloat} (samples : list string)
  (gene_relabs : dict (dict num)) : Prop :=
  NoDup (keys gene_relabs)
  /\ Forall (fun e => In (fst e) samples /\ snd e <> []) gene_relabs.

(** ** Strings, for the proofs *)

(** [s[n:]] *)
Fixpoint string_drop (n : nat) (s : string) : string :=
  match n, s with
  | O, _ => s
  | S _, EmptyString => EmptyString
  | S m, String _ s' => string_drop m s'
  end.

(** ** More inputs *)

(** The scenario with an abundance that is not a number for YL32, and with
    a strain that has no file. *)
Definition relab_not_a_number : dict (dict string) :=
  [("sample1", [("KB1", "0.6"); ("YL32", "n/a")])].

Definition relab_unknown_strain : dict (dict string) :=
  [("sample1", [("KB1", "0.6"); ("I46", "0.4")])].

(** A file that holds the header row only. *)
Definition header_only : directory :=
  [("annotations/KB1.tsv", [header_row])].

(** One strain at 0.1 whose file has ten rows, all of them [alr]. *)
Definition ten_rows : directory :=
  [("annotations/KB1.tsv", repeat (annotation_line "alr") 10)].

Definition one_tenth : file :=
  [Str.line ["strain"; "sample1"]; Str.line ["KB1"; "0.1"]].

Definition one_tenth_relab : dict (dict string) := [("sample1", [("KB1", "0.1")])].

(** [two_samples] with the strains of each sample and the samples in another
    order. *)
Definition two_samples_reordered : dict (dict string) :=
  [("sample2", [("YL32", "0.8"); ("KB1", "0.2")]);
   ("sample1", [("YL32", "0.4"); ("KB1", "0.6")])].

(** The abundance table of [two_samples] as a file, and with its two sample
    columns exchanged. *)
Definition two_columns : file :=
  [Str.line ["strain"; "sample1"; "sample2"];
   Str.line ["KB1"; "0.6"; "0.2"];
   Str.line ["YL32"; "0.4"; "0.8"]].

Definition two_columns_swapped : file :=
  [Str.line ["strain"; "sample2"; "sample1"];
   Str.line ["KB1"; "0.2"; "0.6"];
   Str.line ["YL32"; "0.8"; "0.4"]].

(** ** The words of the specification, for comparison with the code *)

(** The formula of the specification for the value at a sample and an
    identifier [g], computed on doubles: over the strains of the sample whose
    annotation list has [g], the sum of the occurrences of [g] times the
    abundance of the strain over the number of its rows. *)
Definition formula_term (annotations_dir : directory) (annotation_type g : string)
  (entry : string * string) : float :=
  match strain_annotation annotations_dir annotation_type (fst entry),
        float_of_string (snd entry) with
  | Ok genes, Some r =>
      PrimFloat.div
        (PrimFloat.mul (float_of_Z (Z.of_nat (occurrences g genes))) r)
        (float_of_Z (Z.of_nat (List.length genes)))
  | _, _ => PrimFloat.zero
  end.

Definition formula_sum (annotations_dir : directory) (annotation_type : string)
  (relab : dict (dict string)) (sample g : string) : float :=
  fold_left PrimFloat.add
    (map (formula_term annotations_dir annotation_type g)
       (filter (listed annotations_dir annotation_type g)
          (dict_default [] relab sample)))
    PrimFloat.zero.

(** A non-empty run of decimal digits. *)
Definition is_numeric (s : string) : bool :=
  negb (String.eqb s "")
  && forallb (fun c => match digit c with Some _ => true | None => false end)
       (list_ascii_of_string s).

(** The pattern [<base>_<n>] of the specification: exactly two segments
    between underscores, the second one numeric. *)
Definition numeric_suffix_pattern (g : string) : bool :=
  match Str.split Str.underscore g with
  | [_; n] => is_numeric n
  | _ => false
  end.

(** The rule of the specification for a gene symbol [g] and the field
    [field] the record ends with: symbols of the pattern are cut to what
    stands before the underscore, all others are kept. *)
Definition numeric_suffix_rule (g field : string) : Prop :=
  if numeric_suffix_pattern g then field = Str.before Str.underscore g
  else field = g.

(** * Properties *)

Example split_example :
  Str.split Str.underscore "ssuE_2" = ["ssuE"; "2"]
  /\ fields (Str.line ["KB1"; "0.6"; ""]) = ["KB1"; "0.6"; ""]
  /\ Str.replace ".tsv" "" (Str.basename "annotations/KB1.tsv") = "KB1"
  /\ Str.replace ".tsv" "" "a.tsv.tsvb" = "ab".
Proof. repeat split; reflexivity. Qed.

(** ** Strings *)

Section StringFacts.

Variable sep : ascii.

Lemma split_nonempty (s : string) : Str.split sep s <> [].
Proof.
  destruct s as [|c s]; simpl; [discriminate|].
  destruct (Ascii.eqb c sep); [discriminate|].
  destruct (Str.split sep s); discriminate.
Qed.

Lemma split_length (s : string) :
  List.length (Str.split sep s) = S (Str.count sep s).
Proof.
  induction s as [|c s IH]; simpl; [reflexivity|].
  destruct (Ascii.eqb c sep); simpl; [now rewrite IH|].
  destruct (Str.split sep s) as [|f fs] eqn:E; simpl in *; [discriminate|exact IH].
Qed.

Lemma split_first (s : string) :
  nth 0 (Str.split sep s) EmptyString = Str.before sep s.
Proof.
  induction s as [|c s IH]; simpl; [reflexivity|].
  destruct (Ascii.eqb c sep); simpl; [reflexivity|].
  destruct (Str.split sep s) as [|f fs] eqn:E; simpl in *.
  - now destruct (split_nonempty s).
  - now rewrite IH.
Qed.

End StringFacts.

Lemma index_fields_0 (l : string) :
  index (fields l) 0 = Ok (hd EmptyString (fields l)).
Proof.
  unfold fields. destruct (Str.split Str.tab _) eqn:E; [|reflexivity].
  now apply split_nonempty in E.
Qed.

(** ** Annotation records *)

(** C2 (the code departs from it): a row with an empty gene symbol should
    carry the placeholder [unannotated_gene], as the comment in
    [Annotation.__init__] says.  The placeholder has two segments around its
    underscore, so the suffix removal that follows cuts it: the gene field
    of every such row is [unannotated]. *)
Theorem empty_gene_symbol_is_cut (t f l e c p : string) :
  gene (Annotation_init t f l "" e c p) = "unannotated"
  /\ gene (Annotation_init t f l "" e c p) <> "unannotated_gene".
Proof. split; [reflexivity | discriminate]. Qed.

(** The other placeholders have no later step and stay whole. *)
Lemma empty_fields_get_placeholders (t f l g : string) :
  let a := Annotation_init t f l g "" "" "" in
  ec a = "unannotated_ec" /\ cog a = "unannotated_cog"
  /\ product a = "unannotated_gene_product".
Proof. repeat split. Qed.

(** Against C3 as the specification words it: [dnaK_b] has two segments, the
    second is not a number, and the record still keeps only [dnaK]. *)
Lemma non_numeric_suffix_is_cut :
  ~ numeric_suffix_rule "dnaK_b"
      (gene (Annotation_init "LHNLDECA_00001" "CDS" "1368" "dnaK_b" "" "" "")).
Proof. vm_compute. discriminate. Qed.

(** C3 (amended): for every non-empty gene symbol the gene field is what
    stands before the underscore exactly when the symbol holds one
    underscore, that is two segments, whatever the second segment is; any
    other non-empty symbol is kept as it is. *)
Theorem gene_suffix_truncation (t f l g e c p : string) :
  g <> "" ->
  gene (Annotation_init t f l g e c p) =
    if Nat.eqb (Str.count Str.underscore g) 1
    then Str.before Str.underscore g
    else g.
Proof.
  intros Hg. unfold Annotation_init, or_placeholder. simpl.
  destruct (String.eqb_spec g "") as [->|_]; [contradiction|].
  rewrite split_length, split_first. reflexivity.
Qed.

(** [ssuE_2] is read as [ssuE]. *)
Lemma gene_suffix_truncation_ssuE :
  "ssuE_2" <> ""
  /\ gene (Annotation_init "LHNLDECA_00001" "CDS" "1368" "ssuE_2" "" "" "") = "ssuE"
  /\ gene (Annotation_init "LHNLDECA_00001" "CDS" "1368" "ssuE_2" "" "" "") =
     gene (Annotation_init "LHNLDECA_00001" "CDS" "1368" "ssuE" "" "" "").
Proof.
  assert (H : "ssuE_2" <> "") by discriminate.
  split; [exact H|].
  split.
  - exact (gene_suffix_truncation "LHNLDECA_00001" "CDS" "1368" "ssuE_2" "" "" "" H).
  - reflexivity.
Defined.

(** C9: a row of more than seven fields is parsed without error, into the
    record of its first seven fields. *)
Theorem extra_fields_are_ignored (l : string) :
  7 < List.length (fields l) ->
  exists a,
    annotation_of_line l = Ok a
    /\ annotation_of_fields (firstn 7 (fields l)) = Ok a.
Proof.
  unfold annotation_of_line. intros H.
  destruct (fields l) as [|d0 [|d1 [|d2 [|d3 [|d4 [|d5 [|d6 rest]]]]]]];
    simpl in H; try lia.
  eexists. split; reflexivity.
Qed.

(** A row of nine fields. *)
Lemma extra_fields_are_ignored_example :
  let l := Str.line ["LHNLDECA_00001"; "CDS"; "1368"; "alr"; "5.1.1.1"; "COG0787";
                     "Alanine racemase"; "note"; "more"] in
  7 < List.length (fields l)
  /\ exists a,
       annotation_of_line l = Ok a
       /\ annotation_of_fields (firstn 7 (fields l)) = Ok a.
Proof.
  split.
  - vm_compute. lia.
  - apply (extra_fields_are_ignored
             (Str.line ["LHNLDECA_00001"; "CDS"; "1368"; "alr"; "5.1.1.1"; "COG0787";
                        "Alanine racemase"; "note"; "more"])).
    vm_compute. lia.
Defined.

(** A row of fewer than seven fields raises [IndexError]. *)
Lemma short_row_raises (l : string) :
  List.length (fields l) < 7 -> annotation_of_line l = Raise IndexError.
Proof.
  unfold annotation_of_line. intros H.
  destruct (fields l) as [|d0 [|d1 [|d2 [|d3 [|d4 [|d5 [|d6 rest]]]]]]];
    simpl in H; try lia; reflexivity.
Qed.

(** ** check_files *)

(** C7 (the code departs from it): [annotations/KB1.tsv] is the annotation
    file of strain [KB1], as the lookup in [main] reads its name, and
    [check_files] still warns that it is not found: it compares the strain
    with the whole path less its extension. *)
Theorem check_files_warns_for_present_file :
  let relab_file := [Str.line ["strain"; "sample1"]; Str.line ["KB1"; "0.6"]] in
  let glob_result := ["annotations/KB1.tsv"] in
  find_annotation glob_result "KB1" = Ok "annotations/KB1.tsv"
  /\ check_files relab_file glob_result = ["strain KB1 annotation file not found"].
Proof. split; reflexivity. Qed.

(** The loop ends at its first warning: of two strains without a file only
    the first is reported. *)
Lemma check_files_reports_first_only :
  check_files
    [Str.line ["strain"; "sample1"]; Str.line ["KB1"; "0.6"]; Str.line ["YL32"; "0.4"]]
    [] = ["strain KB1 annotation file not found"].
Proof. reflexivity. Qed.

Lemma check_files_at_most_one_warning (relab_file : file) (glob_result : list string) :
  List.length (check_files relab_file glob_result) <= 1.
Proof.
  unfold check_files.
  induction (readlines_after_first relab_file) as [|l rest IH]; simpl; [lia|].
  destruct (member _ _); simpl; [exact IH | lia].
Qed.

(** ** Loops and dictionaries *)

Lemma for_each_app {A S : Type} (body : S -> A -> result S) (l1 l2 : list A) (s : S) :
  for_each body (l1 ++ l2) s = (s' <- for_each body l1 s ;; for_each body l2 s').
Proof.
  revert s. induction l1 as [|x l1 IH]; intros s; simpl; [reflexivity|].
  destruct (body s x); simpl; [apply IH | reflexivity].
Qed.

(** A loop whose body raises on one of its items, whatever the state, raises. *)
Lemma for_each_raises {A S : Type} (body : S -> A -> result S) (l : list A) (x : A) :
  In x l -> (forall s, exists e, body s x = Raise e) ->
  forall s, exists e, for_each body l s = Raise e.
Proof.
  intros Hin Hx. induction l as [|y l IH]; intros s; [contradiction|].
  simpl. destruct Hin as [->|Hin].
  - destruct (Hx s) as [e ->]. now exists e.
  - destruct (body s y) as [s'|e]; simpl; [now apply IH | now exists e].
Qed.

Lemma dict_get_set {V : Type} (d : dict V) (k k' : string) (v : V) :
  dict_get (dict_set d k v) k' = if String.eqb k k' then Some v else dict_get d k'.
Proof.
  induction d as [|[k0 v0] d IH]; simpl.
  - reflexivity.
  - destruct (String.eqb_spec k0 k) as [->|Hk0]; simpl.
    + destruct (String.eqb k k'); reflexivity.
    + destruct (String.eqb_spec k0 k') as [->|Hk0'].
      * destruct (String.eqb_spec k k') as [->|_]; [contradiction|reflexivity].
      * exact IH.
Qed.

Lemma dict_get2_set2 {V : Type} (d : dict (dict V)) (a b a' b' : string) (v : V) :
  dict_get2 (dict_set2 d a b v) a' b' =
    if String.eqb a a' && String.eqb b b' then Some v else dict_get2 d a' b'.
Proof.
  unfold dict_get2, dict_set2.
  replace (dict_default [] (dict_set d a (dict_set (dict_default [] d a) b v)) a')
    with (if String.eqb a a' then dict_set (dict_default [] d a) b v
          else dict_default [] d a').
  - destruct (String.eqb_spec a a') as [->|_]; simpl; [|reflexivity].
    now rewrite dict_get_set.
  - unfold dict_default. rewrite dict_get_set.
    now destruct (String.eqb a a').
Qed.

Lemma dict_get_In {V : Type} (d : dict V) (k : string) (v : V) :
  dict_get d k = Some v -> In (k, v) d.
Proof.
  induction d as [|[k0 v0] d IH]; simpl; [discriminate|].
  destruct (String.eqb_spec k0 k) as [->|_].
  - intros [= ->]. now left.
  - intros H. right. now apply IH.
Qed.

Lemma dict_get_NoDup {V : Type} (d : dict V) (k : string) (v : V) :
  NoDup (keys d) -> In (k, v) d -> dict_get d k = Some v.
Proof.
  induction d as [|[k0 v0] d IH]; simpl; [contradiction|].
  intros Hnd [[= -> ->]|Hin].
  - now rewrite String.eqb_refl.
  - inversion Hnd as [|? ? Hk0 Hnd']; subst.
    destruct (String.eqb_spec k0 k) as [->|_]; [|now apply IH].
    exfalso. apply Hk0. unfold keys. now apply (in_map fst) in Hin.
Qed.

(** ** read_relab *)

Section ReadRelab.

Variables (samples data : list string) (strain : string).

Let cell_body := fun (sample_dict : dict (dict string)) (i : nat) =>
  sample <- index samples i ;;
  value <- index data i ;;
  Ok (dict_set2 sample_dict sample strain value).

Lemma read_relab_cells (len a : nat) (sd : dict (dict string)) :
  (forall i, a <= i < a + len -> i < List.length samples /\ i < List.length data) ->
  exists sd',
    for_each cell_body (seq a len) sd = Ok sd'
    /\ (forall s st,
          st <> strain \/ (forall j, a <= j < a + len -> nth_error samples j <> Some s) ->
          dict_get2 sd' s st = dict_get2 sd s st)
    /\ (forall i s,
          a <= i < a + len -> nth_error samples i = Some s ->
          (forall j, i < j < a + len -> nth_error samples j <> Some s) ->
          dict_get2 sd' s strain = nth_error data i).
Proof.
  revert a sd. induction len as [|len IH]; intros a sd Hwide.
  - exists sd. repeat split; try reflexivity. intros; lia.
  - simpl. unfold cell_body at 1, index.
    destruct (Hwide a ltac:(lia)) as [Hs Hd].
    destruct (nth_error samples a) as [s0|] eqn:Es;
      [|apply nth_error_None in Es; lia].
    destruct (nth_error data a) as [v0|] eqn:Ed;
      [|apply nth_error_None in Ed; lia].
    simpl.
    destruct (IH (S a) (dict_set2 sd s0 strain v0)) as (sd' & Hrun & Hframe & Hcell).
    { intros i Hi. apply Hwide. lia. }
    exists sd'. split; [exact Hrun|]. split.
    + intros s st Hor. rewrite Hframe.
      * rewrite dict_get2_set2.
        destruct (String.eqb_spec s0 s) as [->|_]; [|reflexivity].
        destruct (String.eqb_spec strain st) as [->|_]; [|reflexivity].
        destruct Hor as [Hst|Hj]; [contradiction|].
        exfalso. apply (Hj a); [lia | exact Es].
      * destruct Hor as [Hst|Hj]; [now left|right].
        intros j Hjr. apply Hj. lia.
    + intros i s Hi Hsi Hlast.
      destruct (Nat.eq_dec i a) as [->|Hne].
      * rewrite Hframe.
        -- rewrite dict_get2_set2. rewrite Es in Hsi. injection Hsi as ->.
           now rewrite !String.eqb_refl.
        -- right. intros j Hj. apply Hlast. lia.
      * apply Hcell; [lia | exact Hsi |].
        intros j Hj. apply Hlast. lia.
Qed.

End ReadRelab.

Lemma read_relab_line_spec (samples : list string) (sd : dict (dict string)) (l : string) :
  wide_enough samples l ->
  exists sd',
    read_relab_line samples sd l = Ok sd'
    /\ (forall s st, st <> hd EmptyString (fields l) ->
          dict_get2 sd' s st = dict_get2 sd s st)
    /\ (forall i s,
          1 <= i -> nth_error samples i = Some s ->
          (forall j, i < j -> nth_error samples j <> Some s) ->
          dict_get2 sd' s (hd EmptyString (fields l)) = nth_error (fields l) i).
Proof.
  intros Hw. unfold read_relab_line. rewrite index_fields_0. simpl.
  destruct (read_relab_cells samples (fields l) (hd EmptyString (fields l))
              (List.length samples - 1) 1 sd) as (sd' & Hrun & Hframe & Hcell).
  { unfold wide_enough in Hw. intros i Hi. lia. }
  exists sd'. split; [exact Hrun|]. split.
  - intros s st Hst. apply Hframe. now left.
  - intros i s Hi Hs Hlast.
    assert (i < List.length samples) by (apply nth_error_Some; congruence).
    apply Hcell; [lia | exact Hs |].
    intros j Hj. apply Hlast. lia.
Qed.

Lemma read_relab_lines_spec (samples : list string) (lines : list string)
  (sd : dict (dict string)) :
  Forall (wide_enough samples) lines ->
  exists sd',
    for_each (read_relab_line samples) lines sd = Ok sd'
    /\ (forall s st, Forall (fun l => hd EmptyString (fields l) <> st) lines ->
          dict_get2 sd' s st = dict_get2 sd s st).
Proof.
  revert sd. induction lines as [|l lines IH]; intros sd Hw.
  - exists sd. split; reflexivity.
  - inversion Hw as [|? ? Hl Hrest]; subst.
    destruct (read_relab_line_spec samples sd l Hl) as (sd1 & Hrun1 & Hframe1 & _).
    destruct (IH sd1 Hrest) as (sd' & Hrun & Hframe).
    exists sd'. simpl. rewrite Hrun1. simpl. split; [exact Hrun|].
    intros s st Hst. inversion Hst; subst.
    rewrite Hframe by assumption. now apply Hframe1.
Qed.

(** C10: when several data rows of the abundance table name the same
    strain, the loader raises nothing and the entry of that strain, in every
    sample, is the value of the last of these rows.  The rows are those of
    an abundance table: each has a field for every column of the header. *)
Theorem duplicate_strain_last_row_wins
  (header_line : string) (earlier later : list string) (row : string) :
  Forall (wide_enough (fields header_line)) (earlier ++ row :: later) ->
  Forall (fun l => hd EmptyString (fields l) <> hd EmptyString (fields row)) later ->
  exists sample_dict,
    read_relab (header_line :: earlier ++ row :: later) = Ok sample_dict
    /\ forall i sample,
         1 <= i -> nth_error (fields header_line) i = Some sample ->
         (forall j, i < j -> nth_error (fields header_line) j <> Some sample) ->
         dict_get2 sample_dict sample (hd EmptyString (fields row)) =
           nth_error (fields row) i.
Proof.
  intros Hw Hlater. unfold read_relab. simpl.
  apply Forall_app in Hw. destruct Hw as [Hw1 Hw2].
  inversion Hw2 as [|? ? Hrow Hw3]; subst.
  destruct (read_relab_lines_spec (fields header_line) earlier [] Hw1) as (sd1 & Hrun1 & _).
  destruct (read_relab_line_spec (fields header_line) sd1 row Hrow) as (sd2 & Hrun2 & _ & Hcell).
  destruct (read_relab_lines_spec (fields header_line) later sd2 Hw3) as (sd3 & Hrun3 & Hframe).
  exists sd3. split.
  - rewrite for_each_app, Hrun1. simpl. rewrite Hrun2. simpl. exact Hrun3.
  - intros i sample Hi Hs Hlast. rewrite Hframe by exact Hlater.
    now apply Hcell.
Qed.

(** KB1 stands on two rows: the second one gives its entries. *)
Lemma duplicate_strain_example :
  exists sample_dict,
    read_relab relab_with_duplicate = Ok sample_dict
    /\ dict_get2 sample_dict "sample1" "KB1" = Some "0.6"
    /\ dict_get2 sample_dict "sample2" "KB1" = Some "0.7".
Proof.
  destruct (duplicate_strain_last_row_wins
              (Str.line ["strain"; "sample1"; "sample2"])
              [Str.line ["KB1"; "0.1"; "0.2"]; Str.line ["YL32"; "0.4"; "0.5"]]
              [Str.line ["I46"; "0.3"; "0.1"]]
              (Str.line ["KB1"; "0.6"; "0.7"]))
    as (sd & Hrun & Hcell).
  - repeat constructor; vm_compute; lia.
  - repeat constructor. vm_compute. discriminate.
  - exists sd. split; [exact Hrun|]. split.
    + apply (Hcell 1 "sample1"); [lia | reflexivity |].
      intros [|[|[|[|j]]]] Hj; try lia; vm_compute; discriminate.
    + apply (Hcell 2 "sample2"); [lia | reflexivity |].
      intros [|[|[|[|j]]]] Hj; try lia; vm_compute; discriminate.
Defined.

Lemma for_each_invariant {A S : Type} (body : S -> A -> result S) (P : S -> Prop)
  (l : list A) :
  (forall s x s', P s -> body s x = Ok s' -> P s') ->
  forall s s', P s -> for_each body l s = Ok s' -> P s'.
Proof.
  intros Hbody. induction l as [|x l IH]; intros s s' Hs; simpl.
  - now intros [= <-].
  - destruct (body s x) as [s1|] eqn:E; simpl; [|discriminate].
    apply IH. exact (Hbody s x s1 Hs E).
Qed.

Lemma dict_set_keys_NoDup {V : Type} (d : dict V) (k : string) (v : V) :
  NoDup (keys d) -> NoDup (keys (dict_set d k v)).
Proof.
  unfold keys.
  assert (Hin : forall (d : dict V) x, In x (map fst (dict_set d k v)) ->
                                       In x (map fst d) \/ x = k).
  { clear d. induction d as [|[k0 v0] d IH]; intros x; simpl.
    - intros [<-|[]]. now right.
    - destruct (String.eqb_spec k0 k) as [->|_]; simpl.
      + intros [<-|H]; [left; now left | left; now right].
      + intros [<-|H]; [left; now left|].
        destruct (IH x H) as [H'|H']; [left; now right | now right]. }
  induction d as [|[k0 v0] d IH]; simpl; intros Hnd.
  - repeat constructor. intros [].
  - inversion Hnd as [|? ? Hk0 Hd]; subst.
    destruct (String.eqb_spec k0 k) as [->|Hne]; simpl.
    + now constructor.
    + constructor; [|now apply IH].
      intros H. destruct (Hin d k0 H) as [H'|H']; [now apply Hk0 | now apply Hne].
Qed.

(** The table [read_relab] returns is a dictionary: no sample stands twice
    among its keys. *)
Lemma read_relab_keys_NoDup (relab_file : file) (sample_dict : dict (dict string)) :
  read_relab relab_file = Ok sample_dict -> NoDup (keys sample_dict).
Proof.
  unfold read_relab.
  apply (for_each_invariant _ (fun sd : dict (dict string) => NoDup (keys sd)));
    [|constructor].
  intros sd l sd' Hsd. unfold read_relab_line.
  destruct (index (fields l) 0) as [strain|]; simpl; [|discriminate].
  apply (for_each_invariant _ (fun sd : dict (dict string) => NoDup (keys sd)));
    [|exact Hsd].
  intros sd0 i sd1 Hsd0.
  destruct (index _ i) as [sample|]; simpl; [|discriminate].
  destruct (index (fields l) i) as [value|]; simpl; [|discriminate].
  intros [= <-]. now apply dict_set_keys_NoDup.
Qed.

(** ** The loops of main *)

(** A loop whose body goes through on an item or not, whatever the state,
    goes through exactly when it does on every item. *)
Lemma for_each_ok_iff {A S : Type} (body : S -> A -> result S) (P : A -> Prop) (l : list A) :
  (forall s x, In x l -> (exists s', body s x = Ok s') <-> P x) ->
  forall s, (exists s', for_each body l s = Ok s') <-> Forall P l.
Proof.
  induction l as [|x l IH]; intros Hbody s; simpl.
  - split; [constructor | now exists s].
  - assert (Hl : forall s x, In x l -> (exists s', body s x = Ok s') <-> P x)
      by (intros; apply Hbody; now right).
    split.
    + intros [s' Hrun]. destruct (body s x) as [s1|e] eqn:E; [|discriminate].
      constructor.
      * apply (Hbody s x); [now left | now exists s1].
      * apply (IH Hl s1). now exists s'.
    + intros HP. inversion HP as [|? ? Hx Hrest]; subst.
      apply (Hbody s x) in Hx; [|now left]. destruct Hx as [s1 ->]. simpl.
      now apply (IH Hl s1).
Qed.

Section Loops.

Context {F : PyFloat}.

Variables (annotations_dir : directory) (annotation_type : string).

Lemma add_shares_app (entry : option num) (l1 l2 : list num) :
  add_shares entry (l1 ++ l2) = add_shares (add_shares entry l1) l2.
Proof. apply fold_left_app. Qed.

Lemma add_shares_some (entry : option num) (l : list num) :
  l <> [] \/ entry <> None -> add_shares entry l <> None.
Proof.
  revert entry. induction l as [|s l IH]; intros entry H; simpl.
  - destruct H as [H|H]; [contradiction | exact H].
  - apply IH. right. destruct entry; discriminate.
Qed.

(** The [try] and its [except] branch store the same thing: the entry with
    the share added. *)
Lemma add_gene_eq (sample relab : string) (ngenes : nat)
  (gene_relabs : dict (dict num)) (g : string) :
  add_gene sample relab ngenes gene_relabs g =
    if String.eqb g "gene" then Ok gene_relabs
    else
      s <- share relab ngenes ;;
      Ok (dict_set2 gene_relabs sample g (added (dict_get2 gene_relabs sample g) s)).
Proof.
  unfold add_gene. destruct (String.eqb g "gene"); [reflexivity|].
  destruct (dict_get2 gene_relabs sample g); destruct (share relab ngenes); reflexivity.
Qed.

Lemma occurrences_cons (g g' : string) (genes : list string) :
  occurrences g' (g :: genes) =
    if String.eqb g g' then S (occurrences g' genes) else occurrences g' genes.
Proof.
  unfold occurrences. simpl.
  destruct (string_dec g g') as [->|Hne].
  - now rewrite String.eqb_refl.
  - destruct (String.eqb_spec g g'); [contradiction | reflexivity].
Qed.

Lemma add_genes_lookup (sample relab : string) (ngenes : nat) (genes : list string) :
  forall gene_relabs gene_relabs',
    for_each (add_gene sample relab ngenes) genes gene_relabs = Ok gene_relabs' ->
    forall sample' g',
      dict_get2 gene_relabs' sample' g' =
        if String.eqb sample sample' && negb (String.eqb g' "gene")
        then add_shares (dict_get2 gene_relabs sample' g')
               match share relab ngenes with
               | Ok s => repeat s (occurrences g' genes)
               | Raise _ => []
               end
        else dict_get2 gene_relabs sample' g'.
Proof.
  induction genes as [|g genes IH]; intros gr gr' Hrun sample' g'.
  - injection Hrun as <-. simpl.
    destruct (_ && _); [|reflexivity]. now destruct (share relab ngenes).
  - simpl in Hrun. rewrite add_gene_eq in Hrun. rewrite occurrences_cons.
    destruct (String.eqb_spec g "gene") as [->|Hg].
    + rewrite (IH _ _ Hrun sample' g').
      destruct (String.eqb_spec "gene" g') as [<-|_]; [|reflexivity].
      simpl. now rewrite andb_false_r.
    + destruct (share relab ngenes) as [s|e]; [|discriminate]. simpl in Hrun.
      rewrite (IH _ _ Hrun sample' g'). rewrite dict_get2_set2.
      destruct (String.eqb_spec sample sample') as [<-|_]; simpl; [|reflexivity].
      destruct (String.eqb_spec g g') as [<-|_]; simpl.
      * destruct (String.eqb_spec g "gene"); [contradiction|]. reflexivity.
      * reflexivity.
Qed.

Lemma strain_step_eq (sample : string) (gene_relabs : dict (dict num))
  (entry : string * string) :
  strain_step annotations_dir annotation_type sample gene_relabs entry =
    (genes <- strain_annotation annotations_dir annotation_type (fst entry) ;;
     for_each (add_gene sample (snd entry) (List.length genes)) genes gene_relabs).
Proof.
  destruct entry as [strain relab]. unfold strain_step, strain_annotation. simpl.
  destruct (find_annotation _ _) as [path|]; simpl; [|reflexivity].
  destruct (build_annotation _ _ _) as [annotation|]; simpl; [|reflexivity].
  unfold get_number_of_genes.
  destruct (index (values annotation) 0); reflexivity.
Qed.

Lemma strain_step_lookup (sample : string) (gene_relabs gene_relabs' : dict (dict num))
  (entry : string * string) :
  strain_step annotations_dir annotation_type sample gene_relabs entry = Ok gene_relabs' ->
  forall sample' g',
    dict_get2 gene_relabs' sample' g' =
      if String.eqb sample sample' && negb (String.eqb g' "gene")
      then add_shares (dict_get2 gene_relabs sample' g')
             (strain_shares annotations_dir annotation_type g' entry)
      else dict_get2 gene_relabs sample' g'.
Proof.
  rewrite strain_step_eq. unfold strain_shares.
  destruct (strain_annotation _ _ _) as [genes|]; [|discriminate].
  simpl. apply add_genes_lookup.
Qed.

Lemma strains_lookup (sample : string) (strain_relab : dict string) :
  forall gene_relabs gene_relabs',
    for_each (strain_step annotations_dir annotation_type sample) strain_relab gene_relabs
      = Ok gene_relabs' ->
    forall sample' g',
      dict_get2 gene_relabs' sample' g' =
        if String.eqb sample sample' && negb (String.eqb g' "gene")
        then add_shares (dict_get2 gene_relabs sample' g')
               (flat_map (strain_shares annotations_dir annotation_type g') strain_relab)
        else dict_get2 gene_relabs sample' g'.
Proof.
  induction strain_relab as [|entry rest IH]; intros gr gr' Hrun sample' g'.
  - injection Hrun as <-. simpl. now destruct (_ && _).
  - simpl in Hrun.
    destruct (strain_step _ _ sample gr entry) as [gr1|] eqn:E1; [|discriminate].
    simpl in Hrun. rewrite (IH _ _ Hrun sample' g').
    rewrite (strain_step_lookup _ _ _ _ E1 sample' g').
    destruct (_ && _); [|reflexivity].
    simpl. now rewrite add_shares_app.
Qed.

Lemma samples_lookup (relab : dict (dict string)) :
  forall gene_relabs gene_relabs',
    for_each (sample_step annotations_dir annotation_type) relab gene_relabs
      = Ok gene_relabs' ->
    forall sample g,
      dict_get2 gene_relabs' sample g =
        if String.eqb g "gene" then dict_get2 gene_relabs sample g
        else add_shares (dict_get2 gene_relabs sample g) (selected_shares annotations_dir annotation_type relab sample g).
Proof.
  induction relab as [|[sample0 strains] rest IH]; intros gr gr' Hrun sample g.
  - injection Hrun as <-. simpl. now destruct (String.eqb g "gene").
  - simpl in Hrun.
    destruct (for_each _ strains gr) as [gr1|] eqn:E1; [|discriminate].
    simpl in Hrun. rewrite (IH _ _ Hrun sample g).
    rewrite (strains_lookup _ _ _ _ E1 sample g).
    unfold selected_shares. simpl.
    destruct (String.eqb g "gene"); simpl.
    + now rewrite andb_false_r.
    + rewrite andb_true_r. destruct (String.eqb sample0 sample); simpl.
      * now rewrite add_shares_app.
      * reflexivity.
Qed.

Lemma selected_shares_absent (relab : dict (dict string)) (sample g : string) :
  ~ In sample (keys relab) ->
  selected_shares annotations_dir annotation_type relab sample g = [].
Proof.
  unfold selected_shares.
  induction relab as [|[k v] rest IH]; intros Hnot; simpl; [reflexivity|].
  destruct (String.eqb_spec k sample) as [->|_].
  - exfalso. apply Hnot. now left.
  - apply IH. intros Hin. apply Hnot. now right.
Qed.

Lemma selected_shares_NoDup (relab : dict (dict string)) (sample g : string) :
  NoDup (keys relab) ->
  selected_shares annotations_dir annotation_type relab sample g =
    sample_shares annotations_dir annotation_type relab sample g.
Proof.
  unfold sample_shares, dict_default.
  induction relab as [|[k v] rest IH]; intros Hnd; [reflexivity|].
  inversion Hnd as [|? ? Hk Hrest]; subst.
  unfold selected_shares in *. simpl.
  destruct (String.eqb_spec k sample) as [->|_].
  - fold (selected_shares annotations_dir annotation_type rest sample g).
    rewrite (selected_shares_absent rest sample g Hk). apply app_nil_r.
  - now apply IH.
Qed.

(** *** When the loops go through *)

Lemma add_genes_ok (sample relab : string) (ngenes : nat) (genes : list string) :
  forall gene_relabs,
    (exists gene_relabs',
        for_each (add_gene sample relab ngenes) genes gene_relabs = Ok gene_relabs')
    <-> (Forall (fun g => g = "gene") genes \/ exists s, share relab ngenes = Ok s).
Proof.
  induction genes as [|g genes IH]; intros gr; simpl.
  - split; [now left | now exists gr].
  - rewrite add_gene_eq. destruct (String.eqb_spec g "gene") as [->|Hg].
    + simpl. rewrite IH. split; intros [H|H]; auto.
      inversion H; now left.
    + destruct (share relab ngenes) as [s|e]; simpl.
      * rewrite IH. split; intros _; right; now exists s.
      * split; [intros [? H]; discriminate|].
        intros [H|[s H]]; [|discriminate]. inversion H; contradiction.
Qed.

Lemma strain_step_ok (sample : string) (gene_relabs : dict (dict num))
  (entry : string * string) :
  (exists gene_relabs',
      strain_step annotations_dir annotation_type sample gene_relabs entry = Ok gene_relabs')
  <-> pair_ok annotations_dir annotation_type entry.
Proof.
  rewrite strain_step_eq. unfold pair_ok.
  destruct (strain_annotation _ _ _) as [genes|]; simpl.
  - apply add_genes_ok.
  - split; [intros [? H]; discriminate | contradiction].
Qed.

Lemma sample_step_ok (gene_relabs : dict (dict num)) (entry : string * dict string) :
  (exists gene_relabs',
      sample_step annotations_dir annotation_type gene_relabs entry = Ok gene_relabs')
  <-> Forall (pair_ok annotations_dir annotation_type) (snd entry).
Proof.
  destruct entry as [sample strains]. simpl.
  apply for_each_ok_iff. intros s x _. apply strain_step_ok.
Qed.

Lemma main_loop_ok (relab : dict (dict string)) :
  (exists gene_relabs, main_loop relab annotations_dir annotation_type = Ok gene_relabs)
  <-> pairs_ok annotations_dir annotation_type relab.
Proof.
  unfold main_loop, pairs_ok.
  apply for_each_ok_iff. intros s x _. apply sample_step_ok.
Qed.

End Loops.

(** ** The aggregation *)

Section Aggregation.

Context {F : PyFloat}.

Variables (annotations_dir : directory) (annotation_type : string).

Lemma main_loop_lookup (relab : dict (dict string)) (gene_relabs : dict (dict num)) :
  main_loop relab annotations_dir annotation_type = Ok gene_relabs ->
  forall sample g,
    dict_get2 gene_relabs sample g =
      if String.eqb g "gene" then None
      else total (selected_shares annotations_dir annotation_type relab sample g).
Proof.
  intros Hrun sample g. unfold main_loop in Hrun.
  rewrite (samples_lookup _ _ _ _ _ Hrun sample g). reflexivity.
Qed.

(** C6: a strain whose annotation file has no row ends the run with an
    exception; it is neither skipped nor counted as zero. *)
Theorem empty_annotation_file_is_fatal
  (relab : dict (dict string)) (sample strain abundance path : string)
  (strain_relab : dict string) :
  In (sample, strain_relab) relab ->
  In (strain, abundance) strain_relab ->
  find_annotation (keys annotations_dir) strain = Ok path ->
  open annotations_dir path = Ok [] ->
  exists e, main_loop relab annotations_dir annotation_type = Raise e.
Proof.
  intros Hsample Hstrain Hfind Hopen. unfold main_loop.
  apply (for_each_raises _ _ _ Hsample). intros gr. simpl.
  apply (for_each_raises _ _ _ Hstrain). intros gr1. simpl.
  rewrite Hfind. cbn [bind]. unfold build_annotation.
  destruct (member annotation_type annotation_types).
  - rewrite Hopen. now exists IndexError.
  - now exists AssertionError.
Qed.

(** The exception is the [IndexError] of [get_number_of_genes]: the division
    is not reached. *)
Lemma empty_annotation_file_raises_IndexError
  (sample strain abundance path : string) (gene_relabs : dict (dict num)) :
  member annotation_type annotation_types = true ->
  find_annotation (keys annotations_dir) strain = Ok path ->
  open annotations_dir path = Ok [] ->
  strain_step annotations_dir annotation_type sample gene_relabs (strain, abundance)
    = Raise IndexError.
Proof.
  intros Hty Hfind Hopen. unfold strain_step, build_annotation.
  rewrite Hfind. cbn [bind]. now rewrite Hty, Hopen.
Qed.

(** C5 (amended): when the loops go through, every identifier other than the
    literal [gene] that stands in the annotation list of a strain has a
    total in every sample that lists the strain. *)
Theorem observed_identifiers_have_totals (relab : dict (dict string)) :
  pairs_ok annotations_dir annotation_type relab ->
  exists gene_relabs,
    main_loop relab annotations_dir annotation_type = Ok gene_relabs
    /\ forall sample strain_relab strain abundance genes g,
         In (sample, strain_relab) relab ->
         In (strain, abundance) strain_relab ->
         strain_annotation annotations_dir annotation_type strain = Ok genes ->
         In g genes ->
         g <> "gene" ->
         exists v, dict_get2 gene_relabs sample g = Some v.
Proof.
  intros Hok. destruct (proj2 (main_loop_ok _ _ relab) Hok) as [gr Hrun].
  exists gr. split; [exact Hrun|].
  intros sample strains strain r genes g Hsample Hstrain Hgenes Hg Hne.
  assert (Hsome : dict_get2 gr sample g <> None).
  { rewrite (main_loop_lookup _ _ Hrun).
    destruct (String.eqb_spec g "gene") as [->|_]; [contradiction|].
    apply add_shares_some. left.
    unfold pairs_ok in Hok. rewrite Forall_forall in Hok.
    specialize (Hok _ Hsample). simpl in Hok. rewrite Forall_forall in Hok.
    specialize (Hok _ Hstrain). unfold pair_ok in Hok. simpl in Hok.
    rewrite Hgenes in Hok.
    destruct Hok as [Hall|[s Hs]].
    - rewrite Forall_forall in Hall. now specialize (Hall _ Hg).
    - assert (Hin : In s (selected_shares annotations_dir annotation_type relab sample g)).
      { unfold selected_shares. apply in_flat_map.
        exists (sample, strains). split; [exact Hsample|]. simpl.
        rewrite String.eqb_refl. apply in_flat_map.
        exists (strain, r). split; [exact Hstrain|].
        unfold strain_shares. simpl. rewrite Hgenes, Hs.
        assert (Hocc : occurrences g genes > 0)
          by now apply (count_occ_In string_dec).
        destruct (occurrences g genes); [lia | now left]. }
      intros E. now rewrite E in Hin. }
  destruct (dict_get2 gr sample g) as [v|]; [now exists v | contradiction].
Qed.

End Aggregation.

(** ** The scenario, run *)

Lemma scenario_relab_NoDup : NoDup (keys scenario_relab).
Proof. repeat constructor. intros []. Qed.

Lemma scenario_pairs_ok (F : PyFloat) :
  (exists gr, main_loop scenario_relab (annotations_dir scenario) "gene" = Ok gr) ->
  pairs_ok (annotations_dir scenario) "gene" scenario_relab.
Proof. apply main_loop_ok. Qed.

(** The scenario with an empty file for YL32 ends with an exception. *)
Lemma empty_annotation_file_example :
  exists e, main_loop (F := float64) scenario_relab YL32_empty "gene" = Raise e.
Proof.
  apply (empty_annotation_file_is_fatal (F := float64) YL32_empty "gene" scenario_relab
           "sample1" "YL32" "0.4" "annotations/YL32.tsv"
           [("KB1", "0.6"); ("YL32", "0.4")]).
  - now left.
  - right. now left.
  - reflexivity.
  - reflexivity.
Defined.

(** Against C5 as the specification words it: [gene] stands in the
    annotation list of KB1, KB1 is listed under sample1, the loops go
    through, and sample1 has no total for [gene]. *)
Lemma header_identifier_has_no_total :
  strain_annotation with_header "gene" "KB1" = Ok ["gene"; "alr"]
  /\ In ("sample1", [("KB1", "0.6")]) KB1_only
  /\ exists gene_relabs,
       main_loop (F := float64) KB1_only with_header "gene" = Ok gene_relabs
       /\ dict_get2 gene_relabs "sample1" "gene" = None.
Proof.
  split; [reflexivity|]. split; [now left|].
  eexists. split; [vm_compute; reflexivity | reflexivity].
Qed.

(** In the scenario both identifiers of sample1 have a total. *)
Lemma observed_identifiers_have_totals_scenario :
  exists gene_relabs,
    main_loop (F := float64) scenario_relab (annotations_dir scenario) "gene"
      = Ok gene_relabs
    /\ (exists v, dict_get2 gene_relabs "sample1" "alr" = Some v)
    /\ (exists v, dict_get2 gene_relabs "sample1" "luxS" = Some v).
Proof.
  destruct (observed_identifiers_have_totals (F := float64)
              (annotations_dir scenario) "gene" scenario_relab)
    as (gr & Hrun & Hall).
  { apply scenario_pairs_ok. eexists. vm_compute. reflexivity. }
  exists gr. split; [exact Hrun|]. split.
  - apply (Hall "sample1" [("KB1", "0.6"); ("YL32", "0.4")] "KB1" "0.6"
             ["alr"; "alr"; "luxS"] "alr");
      [now left | now left | reflexivity | now left | discriminate].
  - apply (Hall "sample1" [("KB1", "0.6"); ("YL32", "0.4")] "YL32" "0.4"
             ["luxS"] "luxS");
      [now left | right; now left | reflexivity | now left | discriminate].
Defined.

(** ** build_annotation, row by row *)

Section BuildAnnotation.

Variables (strain annotation_type : string).

Hypothesis accepted : member annotation_type annotation_types = true.

Lemma build_annotation_line_eq (annotations : dict (list string)) (l : string) :
  build_annotation_line strain annotation_type annotations l =
    (a <- annotation_of_line l ;;
     Ok (dict_append annotations strain (identifier annotation_type a))).
Proof.
  unfold build_annotation_line, identifier.
  destruct (annotation_of_line l) as [a|]; simpl; [|reflexivity].
  destruct (String.eqb annotation_type "gene") eqn:E1; [reflexivity|].
  destruct (String.eqb annotation_type "ko") eqn:E2; [reflexivity|].
  destruct (String.eqb annotation_type "cog") eqn:E3; [reflexivity|].
  unfold member, annotation_types in accepted. simpl in accepted.
  rewrite E1, E2, E3 in accepted. discriminate.
Qed.

Lemma dict_append_single (ids : list string) (id : string) :
  dict_append [(strain, ids)] strain id = [(strain, ids ++ [id])].
Proof.
  unfold dict_append, dict_default. simpl. now rewrite String.eqb_refl.
Qed.

Lemma build_annotation_lines_from (contents : list string) :
  forall ids0,
    for_each (build_annotation_line strain annotation_type) contents [(strain, ids0)] =
      (ids <- identifiers annotation_type contents ;; Ok [(strain, ids0 ++ ids)]).
Proof.
  induction contents as [|l rest IH]; intros ids0; simpl.
  - now rewrite app_nil_r.
  - rewrite build_annotation_line_eq.
    destruct (annotation_of_line l) as [a|]; simpl; [|reflexivity].
    rewrite dict_append_single, IH.
    destruct (identifiers annotation_type rest) as [ids|]; simpl; [|reflexivity].
    now rewrite <- app_assoc.
Qed.

Lemma build_annotation_lines (contents : list string) :
  for_each (build_annotation_line strain annotation_type) contents [] =
    (ids <- identifiers annotation_type contents ;;
     Ok match ids with [] => [] | _ => [(strain, ids)] end).
Proof.
  destruct contents as [|l rest]; simpl; [reflexivity|].
  rewrite build_annotation_line_eq.
  destruct (annotation_of_line l) as [a|]; simpl; [|reflexivity].
  unfold dict_append, dict_default. simpl.
  rewrite build_annotation_lines_from.
  now destruct (identifiers annotation_type rest).
Qed.

End BuildAnnotation.

Lemma identifiers_length (annotation_type : string) (contents : list string) :
  forall ids,
    identifiers annotation_type contents = Ok ids ->
    List.length ids = List.length contents.
Proof.
  induction contents as [|l rest IH]; intros ids; simpl.
  - now intros [= <-].
  - destruct (annotation_of_line l); simpl; [|discriminate].
    destruct (identifiers annotation_type rest) as [ids'|]; simpl; [|discriminate].
    intros [= <-]. simpl. now rewrite (IH ids').
Qed.

(** The annotation list of a strain is the list of the identifiers of the
    rows of its file, which has at least one row. *)
Lemma strain_annotation_eq (annotations_dir : directory) (annotation_type strain : string) :
  strain_annotation annotations_dir annotation_type strain =
    (path <- find_annotation (keys annotations_dir) strain ;;
     if member annotation_type annotation_types
     then
       contents <- open annotations_dir path ;;
       ids <- identifiers annotation_type contents ;;
       match ids with [] => Raise IndexError | _ => Ok ids end
     else Raise AssertionError).
Proof.
  unfold strain_annotation.
  destruct (find_annotation _ _) as [path|]; simpl; [|reflexivity].
  unfold build_annotation.
  destruct (member annotation_type annotation_types) eqn:E; [|reflexivity].
  destruct (open _ _) as [contents|]; simpl; [|reflexivity].
  rewrite (build_annotation_lines _ _ E).
  destruct (identifiers annotation_type contents) as [[|id ids]|]; reflexivity.
Qed.

(** The number of identifiers of a strain is the number of rows of its file. *)
Lemma strain_annotation_rows (annotations_dir : directory)
  (annotation_type strain : string) (genes : list string) :
  strain_annotation annotations_dir annotation_type strain = Ok genes ->
  exists path contents,
    find_annotation (keys annotations_dir) strain = Ok path
    /\ open annotations_dir path = Ok contents
    /\ identifiers annotation_type contents = Ok genes
    /\ List.length genes = List.length contents.
Proof.
  rewrite strain_annotation_eq.
  destruct (find_annotation _ _) as [path|] eqn:Ef; simpl; [|discriminate].
  destruct (member _ _); [|discriminate].
  destruct (open _ _) as [contents|] eqn:Eo; simpl; [|discriminate].
  destruct (identifiers annotation_type contents) as [ids|] eqn:E; simpl; [|discriminate].
  destruct ids as [|id ids]; [discriminate|]. intros [= <-].
  exists path, contents. repeat split; try assumption.
  now apply identifiers_length in E.
Qed.

(** ** Reordering the inputs *)

Lemma identifiers_Permutation (annotation_type : string) (contents contents' : list string) :
  Permutation contents contents' ->
  forall ids,
    identifiers annotation_type contents = Ok ids ->
    exists ids',
      identifiers annotation_type contents' = Ok ids' /\ Permutation ids ids'.
Proof.
  induction 1 as [|l c c' _ IH|l1 l2 c|c c' c'' _ IH1 _ IH2]; intros ids; simpl.
  - intros [= <-]. now exists [].
  - destruct (annotation_of_line l) as [a|]; simpl; [|discriminate].
    destruct (identifiers annotation_type c) as [ids0|]; simpl; [|discriminate].
    intros [= <-]. destruct (IH ids0 eq_refl) as (ids0' & -> & Hp). simpl.
    eexists. split; [reflexivity|]. now constructor.
  - destruct (annotation_of_line l2) as [a2|]; simpl; [|discriminate].
    destruct (annotation_of_line l1) as [a1|]; simpl; [|discriminate].
    destruct (identifiers annotation_type c) as [ids0|]; simpl; [|discriminate].
    intros [= <-]. eexists. split; [reflexivity|]. constructor.
  - intros H. destruct (IH1 _ H) as (ids' & H' & Hp).
    destruct (IH2 _ H') as (ids'' & H'' & Hp').
    exists ids''. split; [exact H''|]. now transitivity ids'.
Qed.

Lemma rows_permuted_sym (d d' : directory) : rows_permuted d d' -> rows_permuted d' d.
Proof.
  induction 1 as [|f f' l l' [Hk Hp] _ IH]; constructor; [|exact IH].
  split; [now symmetry | now symmetry].
Qed.

Lemma rows_permuted_refl (d : directory) : rows_permuted d d.
Proof. induction d; constructor; [now split | assumption]. Qed.

Lemma strains_permuted_refl (relab : dict (dict string)) : strains_permuted relab relab.
Proof. induction relab; constructor; [now split | assumption]. Qed.

Lemma strains_permuted_sym (relab relab' : dict (dict string)) :
  strains_permuted relab relab' -> strains_permuted relab' relab.
Proof.
  induction 1 as [|e e' l l' [Hk Hp] _ IH]; constructor; [|exact IH].
  split; [now symmetry | now symmetry].
Qed.

Lemma rows_permuted_keys (d d' : directory) : rows_permuted d d' -> keys d = keys d'.
Proof.
  unfold keys.
  induction 1 as [|f f' l l' [Hk Hp] _ IH]; simpl; [reflexivity|].
  f_equal; [exact Hk | exact IH].
Qed.

Lemma rows_permuted_open (d d' : directory) (path : string) (contents : file) :
  rows_permuted d d' ->
  open d path = Ok contents ->
  exists contents', open d' path = Ok contents' /\ Permutation contents contents'.
Proof.
  unfold open.
  induction 1 as [|[k c] [k' c'] l l' [Hk Hp] _ IH]; simpl in *; [discriminate|].
  subst k'. destruct (String.eqb k path).
  - intros [= <-]. now exists c'.
  - exact IH.
Qed.

Section Reordering.

Context {F : PyFloat}.

Variables (d d' : directory) (annotation_type : string).

Hypothesis Hrows : rows_permuted d d'.

Lemma strain_annotation_rows_permuted (strain : string) (genes : list string) :
  strain_annotation d annotation_type strain = Ok genes ->
  exists genes',
    strain_annotation d' annotation_type strain = Ok genes' /\ Permutation genes genes'.
Proof.
  rewrite !strain_annotation_eq. rewrite <- (rows_permuted_keys _ _ Hrows).
  destruct (find_annotation (keys d) strain) as [path|]; simpl; [|discriminate].
  destruct (member _ _); [|discriminate].
  destruct (open d path) as [contents|] eqn:Eo; simpl; [|discriminate].
  destruct (rows_permuted_open _ _ _ _ Hrows Eo) as (contents' & -> & Hp). simpl.
  destruct (identifiers annotation_type contents) as [ids|] eqn:E; simpl; [|discriminate].
  destruct (identifiers_Permutation _ _ _ Hp _ E) as (ids' & -> & Hp'). simpl.
  destruct ids as [|id ids]; [discriminate|]. intros [= <-].
  destruct ids' as [|id' ids'].
  - apply Permutation_sym, Permutation_nil in Hp'. discriminate.
  - now exists (id' :: ids').
Qed.

End Reordering.

Section ReorderingShares.

Context {F : PyFloat}.

Variables (d d' : directory) (annotation_type : string).

Hypothesis Hrows : rows_permuted d d'.

Lemma strain_annotation_raises (strain : string) (e : exn) :
  strain_annotation d annotation_type strain = Raise e ->
  exists e', strain_annotation d' annotation_type strain = Raise e'.
Proof.
  intros H. destruct (strain_annotation d' annotation_type strain) as [genes'|e'] eqn:E'.
  - destruct (strain_annotation_rows_permuted d' d annotation_type
                (rows_permuted_sym _ _ Hrows) strain genes' E') as (genes & Hg & _).
    congruence.
  - now exists e'.
Qed.

Lemma strain_shares_rows_permuted (g : string) (entry : string * string) :
  strain_shares d' annotation_type g entry = strain_shares d annotation_type g entry.
Proof.
  unfold strain_shares.
  destruct (strain_annotation d annotation_type (fst entry)) as [genes|e] eqn:E.
  - destruct (strain_annotation_rows_permuted d d' annotation_type Hrows _ _ E)
      as (genes' & -> & Hp).
    rewrite <- (Permutation_length Hp). unfold occurrences.
    now rewrite (proj1 (Permutation_count_occ string_dec genes genes') Hp g).
  - destruct (strain_annotation_raises _ _ E) as [e' ->]. reflexivity.
Qed.

Lemma pair_ok_rows_permuted (entry : string * string) :
  pair_ok d annotation_type entry -> pair_ok d' annotation_type entry.
Proof.
  unfold pair_ok.
  destruct (strain_annotation d annotation_type (fst entry)) as [genes|e] eqn:E;
    [|contradiction].
  destruct (strain_annotation_rows_permuted d d' annotation_type Hrows _ _ E)
    as (genes' & -> & Hp).
  rewrite <- (Permutation_length Hp).
  intros [Hall|Hs]; [left|now right].
  now rewrite <- Hp.
Qed.

End ReorderingShares.

Lemma dict_get_None {V : Type} (dct : dict V) (k : string) :
  dict_get dct k = None <-> ~ In k (keys dct).
Proof.
  induction dct as [|[k0 v0] dct IH]; simpl.
  - split; [intros _ [] | reflexivity].
  - destruct (String.eqb_spec k0 k) as [->|Hne].
    + split; [discriminate|]. intros H. exfalso. apply H. now left.
    + rewrite IH. split.
      * intros H [H0|H0]; [contradiction | now apply H].
      * intros H H0. apply H. now right.
Qed.

Lemma dict_get_Permutation {V : Type} (dct dct' : dict V) (k : string) :
  NoDup (keys dct) -> Permutation dct dct' -> dict_get dct k = dict_get dct' k.
Proof.
  intros Hnd Hp.
  assert (Hnd' : NoDup (keys dct'))
    by (apply (Permutation_NoDup (l := keys dct)); [now apply Permutation_map | exact Hnd]).
  destruct (dict_get dct k) as [v|] eqn:E.
  - symmetry. apply dict_get_NoDup; [exact Hnd'|].
    apply (Permutation_in _ Hp). now apply dict_get_In.
  - symmetry. apply dict_get_None. apply dict_get_None in E.
    intros Hin. apply E. unfold keys in *.
    apply (Permutation_in _ (Permutation_sym (Permutation_map fst Hp))). exact Hin.
Qed.

Lemma strains_permuted_keys (relab relab' : dict (dict string)) :
  strains_permuted relab relab' -> keys relab = keys relab'.
Proof.
  unfold keys.
  induction 1 as [|e e' l l' [Hk Hp] _ IH]; simpl; [reflexivity|].
  f_equal; [exact Hk | exact IH].
Qed.

Lemma strains_permuted_sample (relab relab' : dict (dict string)) (sample : string) :
  strains_permuted relab relab' ->
  Permutation (dict_default [] relab sample) (dict_default [] relab' sample).
Proof.
  unfold dict_default.
  induction 1 as [|[k v] [k' v'] l l' [Hk Hp] _ IH]; simpl in *; [constructor|].
  subst k'. now destruct (String.eqb k sample).
Qed.

(** ** Shares and entries *)

Lemma dict_default_cases {V : Type} (d : dict V) (k : string) (default : V) :
  dict_default default d k = default \/ In (k, dict_default default d k) d.
Proof.
  unfold dict_default. destruct (dict_get d k) eqn:E.
  - right. now apply dict_get_In.
  - now left.
Qed.

Lemma add_shares_cons {F : PyFloat} (entry : option num) (s : num) (l : list num) :
  add_shares entry (s :: l) = add_shares (add_share entry s) l.
Proof. reflexivity. Qed.

Lemma member_occurrences (g : string) (genes : list string) :
  member g genes = false <-> occurrences g genes = 0.
Proof.
  unfold member, occurrences. induction genes as [|x genes IH]; simpl.
  - split; reflexivity.
  - destruct (string_dec x g) as [->|Hne].
    + rewrite String.eqb_refl. simpl. split; discriminate.
    + destruct (String.eqb_spec g x) as [->|_]; [contradiction|]. exact IH.
Qed.

Lemma flat_map_nil {A B : Type} (f : A -> list B) (l : list A) :
  (forall x, In x l -> f x = []) -> flat_map f l = [].
Proof.
  induction l as [|x l IH]; intros H; simpl; [reflexivity|].
  rewrite (H x) by now left. apply IH. intros y Hy. apply H. now right.
Qed.

Section SharesOfEntries.

Context {F : PyFloat}.

Variables (annotations_dir : directory) (annotation_type : string).

Lemma add_shares_none (l : list num) : add_shares None l = None <-> l = [].
Proof.
  split.
  - intros H. destruct l as [|s l]; [reflexivity|].
    exfalso. revert H. apply add_shares_some. left. discriminate.
  - now intros ->.
Qed.

Lemma strain_shares_nil_iff (g : string) (entry : string * string) :
  g <> "gene" ->
  pair_ok annotations_dir annotation_type entry ->
  strain_shares annotations_dir annotation_type g entry = []
  <-> listed annotations_dir annotation_type g entry = false.
Proof.
  intros Hg. unfold pair_ok, strain_shares, listed.
  destruct (strain_annotation _ _ _) as [genes|]; [|contradiction].
  rewrite member_occurrences.
  intros [Hall|[s ->]].
  - assert (E : occurrences g genes = 0).
    { apply member_occurrences. unfold member.
      induction Hall as [|x rest Hx _ IH]; simpl; [reflexivity|].
      subst x. destruct (String.eqb_spec g "gene"); [contradiction | exact IH]. }
    rewrite E. destruct (share _ _); simpl; split; reflexivity.
  - destruct (occurrences g genes); simpl; split; try reflexivity; discriminate.
Qed.

Lemma sample_shares_nil_iff (g : string) (strains : dict string) :
  g <> "gene" ->
  Forall (pair_ok annotations_dir annotation_type) strains ->
  flat_map (strain_shares annotations_dir annotation_type g) strains = []
  <-> existsb (listed annotations_dir annotation_type g) strains = false.
Proof.
  intros Hg. induction 1 as [|entry rest Hentry _ IH]; simpl.
  - split; reflexivity.
  - rewrite orb_false_iff, <- IH, <- (strain_shares_nil_iff g entry Hg Hentry).
    split.
    + intros H. now apply app_eq_nil in H.
    + intros [H1 H2]. exact (f_equal2 (@app _) H1 H2).
Qed.

Lemma strain_shares_unlisted (g : string) (entry : string * string) :
  listed annotations_dir annotation_type g entry = false ->
  strain_shares annotations_dir annotation_type g entry = [].
Proof.
  unfold listed, strain_shares.
  destruct (strain_annotation _ _ _) as [genes|]; [|reflexivity].
  intros H. apply member_occurrences in H. rewrite H.
  now destruct (share _ _).
Qed.

Lemma strain_shares_listed (g strain abundance : string) (genes : list string) (r : num) :
  strain_annotation annotations_dir annotation_type strain = Ok genes ->
  float_of_str abundance = Some r ->
  strain_shares annotations_dir annotation_type g (strain, abundance) =
    repeat (fdiv r (float_of_int (List.length genes))) (occurrences g genes).
Proof.
  intros Hgenes Hparse. unfold strain_shares, share. cbn [fst snd].
  rewrite Hgenes, Hparse. destruct genes as [|x genes]; reflexivity.
Qed.

End SharesOfEntries.

(** ** The equal-share law *)

(** C1 (amended): when the loops go through, the value stored for a sample
    and an identifier [g] other than [gene] is what comes of adding, in the
    arithmetic of the run and in the order of the table, one share
    (abundance over number of annotation rows) per occurrence of [g] in the
    annotation list of each strain listed under the sample, from the first
    share on; [gene] itself has no entry, and neither has an identifier no
    strain of the sample lists.  Where one strain of the sample alone lists
    [g], the value is that strain's share added to itself, once per
    occurrence: the share itself for a single occurrence. *)
Theorem equal_share_law {F : PyFloat} (relab : dict (dict string))
  (annotations_dir : directory) (annotation_type : string) :
  NoDup (keys relab) ->
  pairs_ok annotations_dir annotation_type relab ->
  exists gene_relabs,
    main_loop relab annotations_dir annotation_type = Ok gene_relabs
    /\ (forall sample g,
          dict_get2 gene_relabs sample g =
            if String.eqb g "gene" then None
            else total (sample_shares annotations_dir annotation_type relab sample g))
    /\ (forall sample before strain abundance after genes r g,
          dict_get relab sample = Some (before ++ (strain, abundance) :: after) ->
          strain_annotation annotations_dir annotation_type strain = Ok genes ->
          float_of_str abundance = Some r ->
          g <> "gene" ->
          (forall entry, In entry (before ++ after) ->
                         listed annotations_dir annotation_type g entry = false) ->
          dict_get2 gene_relabs sample g =
            total (repeat (fdiv r (float_of_int (List.length genes)))
                     (occurrences g genes))).
Proof.
  intros Hnd Hok.
  destruct (proj2 (main_loop_ok annotations_dir annotation_type relab) Hok) as [gr Hrun].
  assert (Hval : forall sample g,
             dict_get2 gr sample g =
               if String.eqb g "gene" then None
               else total (sample_shares annotations_dir annotation_type relab sample g)).
  { intros sample g.
    rewrite (main_loop_lookup annotations_dir annotation_type relab gr Hrun sample g).
    now rewrite (selected_shares_NoDup annotations_dir annotation_type relab sample g Hnd). }
  exists gr. split; [exact Hrun|]. split; [exact Hval|].
  intros sample before strain abundance after genes r g Hget Hgenes Hparse Hg Hothers.
  rewrite Hval. destruct (String.eqb_spec g "gene") as [|_]; [contradiction|].
  unfold sample_shares, dict_default. rewrite Hget.
  rewrite flat_map_app. cbn [flat_map].
  rewrite (strain_shares_listed annotations_dir annotation_type g strain abundance
             genes r Hgenes Hparse).
  rewrite !flat_map_nil; [now rewrite app_nil_r | |];
    intros entry Hentry; apply strain_shares_unlisted, Hothers, in_or_app;
    [now right | now left].
Qed.

(** The scenario of the specification on doubles: KB1 at 0.6 with rows alr,
    alr, luxS and YL32 at 0.4 with the row luxS. *)
Lemma equal_share_law_scenario :
  exists gene_relabs,
    main_loop (F := float64) scenario_relab (annotations_dir scenario) "gene"
      = Ok gene_relabs
    /\ (forall sample g,
          dict_get2 gene_relabs sample g =
            if String.eqb g "gene" then None
            else total (sample_shares (annotations_dir scenario) "gene"
                          scenario_relab sample g))
    /\ (forall sample before strain abundance after genes r g,
          dict_get scenario_relab sample = Some (before ++ (strain, abundance) :: after) ->
          strain_annotation (annotations_dir scenario) "gene" strain = Ok genes ->
          float_of_str abundance = Some r ->
          g <> "gene" ->
          (forall entry, In entry (before ++ after) ->
                         listed (annotations_dir scenario) "gene" g entry = false) ->
          dict_get2 gene_relabs sample g =
            total (repeat (fdiv r (float_of_int (List.length genes)))
                     (occurrences g genes))).
Proof.
  apply (equal_share_law (F := float64) scenario_relab (annotations_dir scenario) "gene"
           scenario_relab_NoDup).
  apply scenario_pairs_ok. eexists. vm_compute. reflexivity.
Defined.

(** Against C1 as the specification words it, on Python's floats: one strain
    at 0.1 whose ten rows are all [alr].  The formula gives 10 * 0.1 / 10,
    the double of 0.1; the script adds the share 0.1 / 10 to itself nine
    times and writes 0.09999999999999999, the double below it. *)
Lemma ten_shares_miss_the_formula :
  exists warnings v,
    main (F := float64) (mkArgs one_tenth ten_rows "gene")
      = Ok (warnings, mkTable ["gene"; "sample1"] [("alr", [Some v])])
    /\ read_relab one_tenth = Ok one_tenth_relab
    /\ formula_sum ten_rows "gene" one_tenth_relab "sample1" "alr"
         = PrimFloat.div (float_of_Z 1) (float_of_Z 10)
    /\ v <> formula_sum ten_rows "gene" one_tenth_relab "sample1" "alr".
Proof.
  do 2 eexists. split; [vm_compute; reflexivity|].
  split; [reflexivity|]. split; [vm_compute; reflexivity|].
  intros H.
  apply (f_equal (fun x : float =>
                    PrimFloat.eqb x (PrimFloat.div (float_of_Z 1) (float_of_Z 10))))
    in H.
  vm_compute in H. discriminate.
Qed.

(** The scenario on floats, as [main] writes it: the total of [luxS] is the
    double of 0.6, and the total of [alr], 0.6/3 added to itself, is
    0.39999999999999997, the double below that of 0.4. *)
Remark scenario_on_floats :
  exists warnings v_alr v_luxS,
    main (F := float64) scenario
      = Ok (warnings,
            mkTable ["gene"; "sample1"] [("alr", [Some v_alr]); ("luxS", [Some v_luxS])])
    /\ v_alr <> PrimFloat.div (float_of_Z 4) (float_of_Z 10)
    /\ v_luxS = PrimFloat.div (float_of_Z 6) (float_of_Z 10).
Proof.
  do 3 eexists. split; [vm_compute; reflexivity|]. split.
  - intros H.
    apply (f_equal (fun x : float =>
                      PrimFloat.eqb x (PrimFloat.div (float_of_Z 4) (float_of_Z 10))))
      in H.
    vm_compute in H. discriminate.
  - vm_compute. reflexivity.
Qed.

(** ** Order of processing *)

Lemma pairs_ok_reordered {F : PyFloat} (d d' : directory) (annotation_type : string)
  (relab relab_s relab' : dict (dict string)) :
  rows_permuted d d' ->
  strains_permuted relab relab_s ->
  Permutation relab_s relab' ->
  pairs_ok d annotation_type relab ->
  pairs_ok d' annotation_type relab'.
Proof.
  intros Hrows Hs Hp Hok. unfold pairs_ok in *.
  apply (Permutation_Forall Hp). clear Hp.
  induction Hs as [|e e' l l' [Hk Hperm] _ IH]; [constructor|].
  inversion Hok as [|? ? He Hl]; subst. constructor; [|now apply IH].
  apply (Permutation_Forall Hperm).
  apply (Forall_impl _ (pair_ok_rows_permuted d d' annotation_type Hrows) He).
Qed.

(** C4 (amended): put the strains of every sample of the abundance table in
    another order, then its samples, and the rows of the annotation files:
    the run goes through exactly when it did before; for every sample and
    identifier the shares that are added are the same, in another order, and
    the total is theirs added from the first on in that order, so that an
    entry is there after the reordering exactly when it was before.  When
    the strains of every sample keep their order, every total is the same.
    All of this holds in any arithmetic. *)
Theorem order_independence {F : PyFloat}
  (relab relab_s relab' : dict (dict string)) (d d' : directory)
  (annotation_type : string) :
  NoDup (keys relab) ->
  strains_permuted relab relab_s ->
  Permutation relab_s relab' ->
  rows_permuted d d' ->
  ((exists gene_relabs, main_loop relab d annotation_type = Ok gene_relabs)
   <-> (exists gene_relabs', main_loop relab' d' annotation_type = Ok gene_relabs'))
  /\ forall gene_relabs gene_relabs',
       main_loop relab d annotation_type = Ok gene_relabs ->
       main_loop relab' d' annotation_type = Ok gene_relabs' ->
       (forall sample g,
          Permutation (sample_shares d annotation_type relab sample g)
            (sample_shares d' annotation_type relab' sample g)
          /\ dict_get2 gene_relabs sample g =
               (if String.eqb g "gene" then None
                else total (sample_shares d annotation_type relab sample g))
          /\ dict_get2 gene_relabs' sample g =
               (if String.eqb g "gene" then None
                else total (sample_shares d' annotation_type relab' sample g))
          /\ (dict_get2 gene_relabs sample g = None
              <-> dict_get2 gene_relabs' sample g = None))
       /\ (relab_s = relab -> same_totals gene_relabs gene_relabs').
Proof.
  intros Hnd Hs Hp Hrows.
  assert (Hnd_s : NoDup (keys relab_s))
    by now rewrite <- (strains_permuted_keys _ _ Hs).
  assert (Hnd' : NoDup (keys relab'))
    by (apply (Permutation_NoDup (l := keys relab_s));
        [now apply Permutation_map | exact Hnd_s]).
  assert (Hsample : forall sample,
             dict_default [] relab' sample = dict_default [] relab_s sample)
    by (intros sample; unfold dict_default;
        now rewrite (dict_get_Permutation _ _ sample Hnd_s Hp)).
  assert (Hshares : forall sample g,
             Permutation (sample_shares d annotation_type relab sample g)
               (sample_shares d' annotation_type relab' sample g)).
  { intros sample g. unfold sample_shares. rewrite Hsample.
    rewrite (flat_map_ext _ _ (strain_shares_rows_permuted d d' annotation_type Hrows g)).
    apply Permutation_flat_map. now apply strains_permuted_sample. }
  split.
  - rewrite !main_loop_ok. split; intros Hok.
    + exact (pairs_ok_reordered d d' annotation_type relab relab_s relab'
               Hrows Hs Hp Hok).
    + pose proof (pairs_ok_reordered d' d' annotation_type relab' relab' relab_s
                    (rows_permuted_refl d') (strains_permuted_refl relab')
                    (Permutation_sym Hp) Hok) as Hok_s.
      exact (pairs_ok_reordered d' d annotation_type relab_s relab relab
               (rows_permuted_sym _ _ Hrows) (strains_permuted_sym _ _ Hs)
               (Permutation_refl relab) Hok_s).
  - intros gr gr' Hrun Hrun'.
    assert (Hval : forall sample g,
               dict_get2 gr sample g =
                 if String.eqb g "gene" then None
                 else total (sample_shares d annotation_type relab sample g)).
    { intros sample g. rewrite (main_loop_lookup _ _ _ _ Hrun sample g).
      now rewrite (selected_shares_NoDup _ _ _ _ _ Hnd). }
    assert (Hval' : forall sample g,
               dict_get2 gr' sample g =
                 if String.eqb g "gene" then None
                 else total (sample_shares d' annotation_type relab' sample g)).
    { intros sample g. rewrite (main_loop_lookup _ _ _ _ Hrun' sample g).
      now rewrite (selected_shares_NoDup _ _ _ _ _ Hnd'). }
    split.
    + intros sample g. split; [apply Hshares|]. split; [apply Hval|].
      split; [apply Hval'|]. rewrite Hval, Hval'.
      destruct (String.eqb g "gene"); [split; reflexivity|].
      unfold total. rewrite !add_shares_none.
      split; intros E; [apply Permutation_nil; rewrite <- E
                       | apply Permutation_nil; rewrite <- E; apply Permutation_sym];
        apply Hshares.
    + intros -> sample g. rewrite Hval, Hval'.
      destruct (String.eqb g "gene"); [reflexivity|]. f_equal.
      unfold sample_shares. rewrite Hsample.
      now rewrite (flat_map_ext _ _
                     (strain_shares_rows_permuted d d' annotation_type Hrows g)).
Qed.

(** Against C4 as the specification words it, on Python's floats.  The two
    abundance tables hold the same rows, one in the reverse order of the
    other, and the written total of [alr] is (0.1 + 0.2) + 0.3, that is
    0.6000000000000001, for one and (0.3 + 0.2) + 0.1, that is 0.6, for the
    other.  With the two sample columns exchanged the columns of the written
    table are exchanged too, and with the rows of an annotation file in
    another order so are the rows of the written table: the text that is
    written is not the same. *)
Lemma reordering_changes_the_written_table :
  (Permutation relab_ascending relab_descending
   /\ exists warnings warnings' v v',
        main (F := float64) (mkArgs relab_ascending three_strains "gene")
          = Ok (warnings, mkTable ["gene"; "sample1"] [("alr", [Some v])])
        /\ main (F := float64) (mkArgs relab_descending three_strains "gene")
             = Ok (warnings', mkTable ["gene"; "sample1"] [("alr", [Some v'])])
        /\ v <> v')
  /\ (exists warnings warnings' t t',
         main (F := float64) (mkArgs two_columns (annotations_dir scenario) "gene")
           = Ok (warnings, t)
         /\ main (F := float64)
              (mkArgs two_columns_swapped (annotations_dir scenario) "gene")
              = Ok (warnings', t')
         /\ header t = ["gene"; "sample1"; "sample2"]
         /\ header t' = ["gene"; "sample2"; "sample1"])
  /\ (exists warnings warnings' t t',
         main (F := float64) scenario = Ok (warnings, t)
         /\ main (F := float64) (mkArgs (relab scenario) scenario_rows_moved "gene")
              = Ok (warnings', t')
         /\ map fst (rows t) = ["alr"; "luxS"]
         /\ map fst (rows t') = ["luxS"; "alr"]).
Proof.
  split; [split|split].
  - unfold relab_ascending, relab_descending. constructor.
    apply (Permutation_rev [Str.line ["KB1"; "0.1"]; Str.line ["YL32"; "0.2"];
                            Str.line ["I46"; "0.3"]]).
  - do 4 eexists. split; [vm_compute; reflexivity|].
    split; [vm_compute; reflexivity|].
    intros H.
    apply (f_equal (fun x : float =>
                      PrimFloat.eqb x (PrimFloat.div (float_of_Z 6) (float_of_Z 10))))
      in H.
    vm_compute in H. discriminate.
  - do 4 eexists. split; [vm_compute; reflexivity|].
    split; [vm_compute; reflexivity|]. split; reflexivity.
  - do 4 eexists. split; [vm_compute; reflexivity|].
    split; [vm_compute; reflexivity|]. split; reflexivity.
Qed.

Lemma two_samples_NoDup : NoDup (keys two_samples).
Proof.
  repeat constructor; simpl; intuition discriminate.
Qed.

Lemma scenario_rows_permuted :
  rows_permuted (annotations_dir scenario) scenario_rows_moved.
Proof.
  constructor; [split; [reflexivity|] | apply rows_permuted_refl].
  simpl. apply Permutation_sym, Permutation_cons_append.
Qed.

(** Strains, samples and annotation rows in another order, on floats; then
    samples and rows only, where the totals are the same. *)
Lemma order_independence_example :
  (((exists gene_relabs,
        main_loop (F := float64) two_samples (annotations_dir scenario) "gene"
          = Ok gene_relabs)
    <-> (exists gene_relabs',
            main_loop (F := float64) two_samples_reordered scenario_rows_moved "gene"
              = Ok gene_relabs'))
   /\ forall gene_relabs gene_relabs',
        main_loop (F := float64) two_samples (annotations_dir scenario) "gene"
          = Ok gene_relabs ->
        main_loop (F := float64) two_samples_reordered scenario_rows_moved "gene"
          = Ok gene_relabs' ->
        (forall sample g,
           Permutation (sample_shares (annotations_dir scenario) "gene" two_samples sample g)
             (sample_shares scenario_rows_moved "gene" two_samples_reordered sample g)
           /\ dict_get2 gene_relabs sample g =
                (if String.eqb g "gene" then None
                 else total (sample_shares (annotations_dir scenario) "gene"
                               two_samples sample g))
           /\ dict_get2 gene_relabs' sample g =
                (if String.eqb g "gene" then None
                 else total (sample_shares scenario_rows_moved "gene"
                               two_samples_reordered sample g))
           /\ (dict_get2 gene_relabs sample g = None
               <-> dict_get2 gene_relabs' sample g = None))
        /\ (two_samples_strains_swapped = two_samples
            -> same_totals gene_relabs gene_relabs'))
  /\ exists gene_relabs gene_relabs',
       main_loop (F := float64) two_samples (annotations_dir scenario) "gene"
         = Ok gene_relabs
       /\ main_loop (F := float64) two_samples_swapped scenario_rows_moved "gene"
            = Ok gene_relabs'
       /\ same_totals gene_relabs gene_relabs'.
Proof.
  split.
  - apply (order_independence (F := float64) two_samples two_samples_strains_swapped
             two_samples_reordered (annotations_dir scenario) scenario_rows_moved "gene"
             two_samples_NoDup).
    + repeat constructor; simpl; apply perm_swap.
    + apply perm_swap.
    + exact scenario_rows_permuted.
  - destruct (main_loop (F := float64) two_samples (annotations_dir scenario) "gene")
      as [gr|] eqn:Hrun; [|vm_compute in Hrun; discriminate].
    destruct (main_loop (F := float64) two_samples_swapped scenario_rows_moved "gene")
      as [gr'|] eqn:Hrun'; [|vm_compute in Hrun'; discriminate].
    exists gr, gr'. split; [reflexivity|]. split; [reflexivity|].
    exact (proj2 (proj2 (order_independence (F := float64) two_samples two_samples
                           two_samples_swapped (annotations_dir scenario)
                           scenario_rows_moved "gene" two_samples_NoDup
                           (strains_permuted_refl _) (perm_swap _ _ [])
                           scenario_rows_permuted)
                    gr gr' Hrun Hrun') eq_refl).
Defined.


(** ** The written table *)

Lemma member_In (x : string) (l : list string) : member x l = true <-> In x l.
Proof.
  unfold member. rewrite existsb_exists. split.
  - intros (y & Hy & E). apply String.eqb_eq in E. now subst.
  - intros H. exists x. split; [exact H | apply String.eqb_refl].
Qed.







(** * Further properties *)

(** ** read_relab: when it raises, and what it holds *)

Lemma for_each_raises_only {A S : Type} (body : S -> A -> result S) (P : exn -> Prop)
  (l : list A) :
  (forall s x e, body s x = Raise e -> P e) ->
  forall s e, for_each body l s = Raise e -> P e.
Proof.
  intros Hbody. induction l as [|x l IH]; intros s e; simpl; [discriminate|].
  destruct (body s x) as [s1|e1] eqn:E; simpl.
  - apply IH.
  - intros [= <-]. exact (Hbody s x e1 E).
Qed.

Lemma index_raises_only {A : Type} (l : list A) (i : nat) (e : exn) :
  index l i = Raise e -> e = IndexError.
Proof. unfold index. destruct (nth_error l i); [discriminate | now intros [= <-]]. Qed.

Lemma read_relab_line_raises_only (samples : list string) (sd : dict (dict string))
  (l : string) (e : exn) :
  read_relab_line samples sd l = Raise e -> e = IndexError.
Proof.
  unfold read_relab_line. rewrite index_fields_0. cbn [bind].
  apply (for_each_raises_only _ (fun e => e = IndexError)). intros s i e'.
  destruct (index samples i) as [sample|e1] eqn:E1; cbn [bind].
  - destruct (index (fields l) i) as [v|e2] eqn:E2; cbn [bind]; [discriminate|].
    intros [= <-]. exact (index_raises_only _ _ _ E2).
  - intros [= <-]. exact (index_raises_only _ _ _ E1).
Qed.

Section ReadRelabCells.

Variables (samples data : list string) (strain : string).

Let cell_body := fun (sample_dict : dict (dict string)) (i : nat) =>
  sample <- index samples i ;;
  value <- index data i ;;
  Ok (dict_set2 sample_dict sample strain value).

(** The loop over the columns goes through only when every column read has
    a field, and then holds the entries it had and those of the row. *)
Lemma read_relab_cells_ok (len a : nat) (sd sd' : dict (dict string)) :
  for_each cell_body (seq a len) sd = Ok sd' ->
  (forall i, a <= i < a + len -> i < List.length data)
  /\ forall s st,
       dict_get2 sd' s st <> None
       <-> dict_get2 sd s st <> None
           \/ (st = strain /\ exists i, a <= i < a + len /\ nth_error samples i = Some s).
Proof.
  revert a sd. induction len as [|len IH]; intros a sd; simpl.
  - intros [= <-]. split; [intros; lia|]. intros s st. split; [now left|].
    intros [H|(_ & i & Hi & _)]; [exact H | lia].
  - unfold cell_body at 1, index.
    destruct (nth_error samples a) as [s0|] eqn:Es; cbn [bind]; [|discriminate].
    destruct (nth_error data a) as [v0|] eqn:Ed; cbn [bind]; [|discriminate].
    intros Hrun. destruct (IH _ _ Hrun) as [Hlen Hdom]. split.
    + intros i Hi. destruct (Nat.eq_dec i a) as [->|Hne].
      * apply nth_error_Some. congruence.
      * apply Hlen. lia.
    + intros s st. rewrite Hdom, dict_get2_set2.
      destruct (String.eqb_spec s0 s) as [->|Hs]; simpl.
      * destruct (String.eqb_spec strain st) as [<-|Hst].
        -- split; [|intros _; left; discriminate].
           intros _. right. split; [reflexivity|]. exists a. split; [lia | exact Es].
        -- split.
           ++ intros [H|(E & i & Hi & Hs)]; [now left|].
              right. split; [exact E|]. exists i. split; [lia | exact Hs].
           ++ intros [H|(E & _)]; [now left | now subst].
      * split.
        -- intros [H|(E & i & Hi & Hi')]; [now left|].
           right. split; [exact E|]. exists i. split; [lia | exact Hi'].
        -- intros [H|(E & i & Hi & Hi')]; [now left|].
           right. split; [exact E|]. exists i. split; [|exact Hi'].
           destruct (Nat.eq_dec i a) as [->|Hne]; [congruence | lia].
Qed.

End ReadRelabCells.

Lemma tl_In_nth_error {A : Type} (l : list A) (x : A) :
  In x (tl l) <-> exists i, 1 <= i < 1 + (List.length l - 1) /\ nth_error l i = Some x.
Proof.
  destruct l as [|y l]; simpl.
  - split; [intros [] | intros (i & Hi & _); lia].
  - rewrite Nat.sub_0_r. split.
    + intros H. apply In_nth_error in H. destruct H as [n Hn].
      exists (S n). split; [|exact Hn].
      assert (n < List.length l) by (apply nth_error_Some; congruence). lia.
    + intros ([|i] & Hi & Hx); [lia|]. simpl in Hx. now apply nth_error_In in Hx.
Qed.

Lemma read_relab_line_ok (samples : list string) (sd sd' : dict (dict string)) (l : string) :
  read_relab_line samples sd l = Ok sd' ->
  wide_enough samples l
  /\ forall s st,
       dict_get2 sd' s st <> None
       <-> dict_get2 sd s st <> None
           \/ (st = hd EmptyString (fields l) /\ In s (tl samples)).
Proof.
  unfold read_relab_line. rewrite index_fields_0. cbn [bind]. intros Hrun.
  destruct (read_relab_cells_ok _ _ _ _ _ _ _ Hrun) as [Hlen Hdom]. split.
  - unfold wide_enough.
    assert (Hne : List.length (fields l) <> 0).
    { unfold fields. pose proof (split_nonempty Str.tab (Str.strip Str.newline l)).
      destruct (Str.split _ _); [contradiction | discriminate]. }
    destruct (le_lt_dec (List.length samples) 1) as [Hs|Hs]; [lia|].
    specialize (Hlen (List.length samples - 1)). lia.
  - intros s st. rewrite Hdom, tl_In_nth_error. reflexivity.
Qed.

Lemma read_relab_lines_ok (samples : list string) (lines : list string) :
  forall sd sd',
    for_each (read_relab_line samples) lines sd = Ok sd' ->
    forall s st,
      dict_get2 sd' s st <> None
      <-> dict_get2 sd s st <> None
          \/ (In s (tl samples) /\ In st (map (fun l => hd EmptyString (fields l)) lines)).
Proof.
  induction lines as [|l lines IH]; intros sd sd'; simpl.
  - intros [= <-] s st. split; [now left | intros [H|[_ []]]; exact H].
  - destruct (read_relab_line samples sd l) as [sd1|] eqn:E; cbn [bind]; [|discriminate].
    intros Hrun s st. rewrite (IH _ _ Hrun).
    destruct (read_relab_line_ok _ _ _ _ E) as [_ Hl]. rewrite Hl. intuition.
Qed.

(** X1: [read_relab] returns a table exactly when every data row has a
    field for every column of the header, and the only exception it raises
    is [IndexError]. *)
Theorem read_relab_ok_iff (relab_file : file) :
  ((exists sample_dict, read_relab relab_file = Ok sample_dict)
   <-> Forall (wide_enough (fields (readline relab_file)))
         (readlines_after_first relab_file))
  /\ forall e, read_relab relab_file = Raise e -> e = IndexError.
Proof.
  unfold read_relab. split.
  - apply for_each_ok_iff. intros sd l _. split.
    + intros [sd' H]. now destruct (read_relab_line_ok _ _ _ _ H).
    + intros H. destruct (read_relab_line_spec _ sd l H) as (sd' & Hrun & _).
      now exists sd'.
  - apply (for_each_raises_only _ (fun e => e = IndexError)).
    intros s l e. apply read_relab_line_raises_only.
Qed.

(** X2: the table [read_relab] returns has an entry for a sample and a
    strain exactly when the sample is a column of the header after the first
    and the strain is the first field of a data row. *)
Theorem read_relab_entries (relab_file : file) (sample_dict : dict (dict string)) :
  read_relab relab_file = Ok sample_dict ->
  forall sample strain,
    (exists value, dict_get2 sample_dict sample strain = Some value)
    <-> In sample (tl (fields (readline relab_file)))
        /\ In strain (map (fun l => hd EmptyString (fields l))
                        (readlines_after_first relab_file)).
Proof.
  unfold read_relab. intros Hrun sample strain.
  pose proof (read_relab_lines_ok _ _ _ _ Hrun sample strain) as H.
  assert (Hsome : (exists value, dict_get2 sample_dict sample strain = Some value)
                  <-> dict_get2 sample_dict sample strain <> None).
  { destruct (dict_get2 sample_dict sample strain) as [v|].
    - split; [discriminate | intros _; now exists v].
    - split; [intros [v Hv]; discriminate | intros Hn; now destruct Hn]. }
  rewrite Hsome, H. split; [|now right].
  intros [Habs|Hin]; [now destruct Habs | exact Hin].
Qed.

Lemma read_relab_entries_example :
  exists sample_dict,
    read_relab relab_with_duplicate = Ok sample_dict
    /\ (exists value, dict_get2 sample_dict "sample2" "I46" = Some value)
    /\ ~ (exists value, dict_get2 sample_dict "strain" "I46" = Some value).
Proof.
  destruct (read_relab relab_with_duplicate) as [sd|] eqn:Hrun;
    [|vm_compute in Hrun; discriminate].
  exists sd. split; [reflexivity|].
  pose proof (read_relab_entries relab_with_duplicate sd Hrun) as H. split.
  - apply H. split; vm_compute; intuition.
  - intros Habs. apply H in Habs. destruct Habs as [Hs _].
    vm_compute in Hs. intuition discriminate.
Defined.

(** ** Annotation: what every record satisfies *)

Lemma count_before (c : ascii) (s : string) : Str.count c (Str.before c s) = 0.
Proof.
  induction s as [|a s IH]; simpl; [reflexivity|].
  destruct (Ascii.eqb a c) eqn:E; simpl; [reflexivity|]. now rewrite E.
Qed.

Lemma or_placeholder_nonempty (value placeholder : string) :
  placeholder <> "" -> or_placeholder value placeholder <> "".
Proof.
  intros Hp. unfold or_placeholder.
  destruct (String.eqb_spec value ""); assumption.
Qed.

(** X3: whatever the seven fields of a row, the record keeps the locus tag,
    the feature type and the length as they are and the EC number, the COG
    and the product when they are not empty; its EC number, COG and product
    are never empty; and its gene never holds exactly one underscore, so
    that the removal of the suffix has nothing left to remove. *)
Theorem annotation_record_invariants (t f l g e c p : string) :
  let a := Annotation_init t f l g e c p in
  locus_tag a = t /\ ftype a = f /\ length a = l
  /\ ec a <> "" /\ cog a <> "" /\ product a <> ""
  /\ (e <> "" -> ec a = e) /\ (c <> "" -> cog a = c) /\ (p <> "" -> product a = p)
  /\ Str.count Str.underscore (gene a) <> 1.
Proof.
  simpl. repeat split; try (apply or_placeholder_nonempty; discriminate);
    try (intros H; unfold or_placeholder;
         match goal with
         | |- (if String.eqb ?x _ then _ else _) = _ =>
             destruct (String.eqb_spec x ""); [contradiction | reflexivity]
         end).
  rewrite split_length, split_first.
  destruct (Nat.eqb_spec (S (Str.count Str.underscore (or_placeholder g "unannotated_gene"))) 2)
    as [E|E].
  - rewrite count_before. discriminate.
  - lia.
Qed.

(** ** build_annotation: one identifier per row *)

Lemma annotation_of_line_ok (l : string) :
  7 <= List.length (fields l) -> exists a, annotation_of_line l = Ok a.
Proof.
  unfold annotation_of_line. intros H.
  destruct (fields l) as [|d0 [|d1 [|d2 [|d3 [|d4 [|d5 [|d6 rest]]]]]]];
    simpl in H; try lia.
  eexists. reflexivity.
Qed.

Lemma identifiers_rows (annotation_type : string) (contents : list string) :
  Forall (fun l => 7 <= List.length (fields l)) contents ->
  exists ids,
    identifiers annotation_type contents = Ok ids
    /\ Forall2 (fun l id => exists a,
                  annotation_of_line l = Ok a /\ id = identifier annotation_type a)
         contents ids.
Proof.
  induction 1 as [|l rest Hl _ (ids & Hids & Hall)]; simpl.
  - exists []. split; [reflexivity | constructor].
  - destruct (annotation_of_line_ok l Hl) as [a Ha]. rewrite Ha, Hids. cbn [bind].
    eexists. split; [reflexivity|]. constructor; [|exact Hall]. now exists a.
Qed.

Lemma identifiers_short_row (annotation_type : string) (contents : list string) :
  Exists (fun l => List.length (fields l) < 7) contents ->
  identifiers annotation_type contents = Raise IndexError.
Proof.
  induction 1 as [l rest Hl|l rest _ IH]; simpl.
  - now rewrite (short_row_raises l Hl).
  - destruct (le_lt_dec 7 (List.length (fields l))) as [Hl|Hl].
    + destruct (annotation_of_line_ok l Hl) as [a ->]. cbn [bind]. now rewrite IH.
    + now rewrite (short_row_raises l Hl).
Qed.

(** X4: for an accepted annotation type and a file whose rows all have
    seven fields or more, [build_annotation] returns, under the one key made
    of the base name of the file less its extension, one identifier per row
    in the order of the file: the gene of the row's record for [gene], its
    EC number for [ko], its COG for [cog].  For a file with no row it returns
    the empty dictionary. *)
Theorem build_annotation_one_identifier_per_row
  (files : directory) (infile annotation_type : string) (contents : list string) :
  member annotation_type annotation_types = true ->
  open files infile = Ok contents ->
  Forall (fun l => 7 <= List.length (fields l)) contents ->
  exists ids,
    build_annotation files infile annotation_type =
      Ok match contents with
         | [] => []
         | _ => [(Str.replace ".tsv" "" (Str.basename infile), ids)]
         end
    /\ Forall2 (fun l id => exists a,
                  annotation_of_line l = Ok a
                  /\ id = if String.eqb annotation_type "gene" then gene a
                          else if String.eqb annotation_type "ko" then ec a
                          else cog a)
         contents ids.
Proof.
  intros Hty Hopen Hrows. unfold build_annotation. rewrite Hty, Hopen. cbn [bind].
  rewrite (build_annotation_lines _ _ Hty).
  destruct (identifiers_rows annotation_type contents Hrows) as (ids & Hids & Hall).
  exists ids. rewrite Hids. cbn [bind]. split; [|exact Hall].
  destruct contents; [|inversion Hall; subst; reflexivity].
  inversion Hall. reflexivity.
Qed.

Lemma build_annotation_scenario_ko :
  exists ids,
    build_annotation (annotations_dir scenario) "annotations/KB1.tsv" "ko"
      = Ok [("KB1", ids)]
    /\ List.length ids = 3.
Proof.
  destruct (build_annotation_one_identifier_per_row (annotations_dir scenario)
              "annotations/KB1.tsv" "ko"
              [annotation_line "alr"; annotation_line "alr"; annotation_line "luxS"])
    as (ids & Hrun & Hall).
  - reflexivity.
  - reflexivity.
  - repeat constructor; vm_compute; lia.
  - exists ids. split; [exact Hrun|].
    apply Forall2_length in Hall. now rewrite <- Hall.
Defined.

(** X5: for an accepted annotation type, a file with a row of fewer than
    seven fields, a blank line for one, makes [build_annotation] raise
    [IndexError]. *)
Theorem build_annotation_short_row
  (files : directory) (infile annotation_type : string) (contents : list string) :
  member annotation_type annotation_types = true ->
  open files infile = Ok contents ->
  Exists (fun l => List.length (fields l) < 7) contents ->
  build_annotation files infile annotation_type = Raise IndexError.
Proof.
  intros Hty Hopen Hshort. unfold build_annotation. rewrite Hty, Hopen. cbn [bind].
  rewrite (build_annotation_lines _ _ Hty).
  now rewrite (identifiers_short_row annotation_type contents Hshort).
Qed.

Lemma build_annotation_blank_line :
  build_annotation
    [("annotations/KB1.tsv", [annotation_line "alr"; Str.line [""]])]
    "annotations/KB1.tsv" "gene" = Raise IndexError.
Proof.
  apply (build_annotation_short_row
           [("annotations/KB1.tsv", [annotation_line "alr"; Str.line [""]])]
           "annotations/KB1.tsv" "gene" [annotation_line "alr"; Str.line [""]]).
  - reflexivity.
  - reflexivity.
  - right. left. vm_compute. lia.
Defined.

(** X6: the number [get_number_of_genes] reads off what [build_annotation]
    returned is the number of rows of the file, the rows whose identifier
    [main] skips included; on the dictionary of a file with no row it raises
    [IndexError]. *)
Theorem get_number_of_genes_counts_rows
  (files : directory) (infile annotation_type : string) (contents : list string)
  (annotations : dict (list string)) :
  open files infile = Ok contents ->
  build_annotation files infile annotation_type = Ok annotations ->
  get_number_of_genes annotations =
    match contents with
    | [] => Raise IndexError
    | _ => Ok (List.length contents)
    end.
Proof.
  intros Hopen. unfold build_annotation.
  destruct (member annotation_type annotation_types) eqn:Hty; [|discriminate].
  rewrite Hopen. cbn [bind]. rewrite (build_annotation_lines _ _ Hty).
  destruct (identifiers annotation_type contents) as [ids|] eqn:Hids; cbn [bind];
    [|discriminate].
  intros [= <-]. apply identifiers_length in Hids.
  destruct ids as [|id ids]; destruct contents as [|l rest]; try discriminate.
  - reflexivity.
  - unfold get_number_of_genes. simpl in *. congruence.
Qed.

Lemma get_number_of_genes_with_header :
  exists annotations,
    build_annotation with_header "annotations/KB1.tsv" "gene" = Ok annotations
    /\ get_number_of_genes annotations = Ok 2.
Proof.
  destruct (build_annotation with_header "annotations/KB1.tsv" "gene")
    as [annotations|] eqn:Hrun; [|vm_compute in Hrun; discriminate].
  exists annotations. split; [reflexivity|].
  exact (get_number_of_genes_counts_rows with_header "annotations/KB1.tsv" "gene"
           [header_row; annotation_line "alr"] annotations eq_refl Hrun).
Defined.

(** ** main: the errors of an iteration *)

Section IterationErrors.

Context {F : PyFloat}.

Variables (annotations_dir : directory) (annotation_type : string).

Lemma filter_none {A : Type} (f : A -> bool) (l : list A) :
  (forall x, In x l -> f x = false) -> filter f l = [].
Proof.
  induction l as [|x l IH]; intros H; simpl; [reflexivity|].
  rewrite (H x) by now left. apply IH. intros y Hy. apply H. now right.
Qed.

(** X7: when a sample lists a strain for which the directory has no file,
    that is no path whose base name less its extension is the strain, the
    loops of [main] end with an exception. *)
Theorem missing_annotation_file_is_fatal
  (relab : dict (dict string)) (sample strain abundance : string)
  (strain_relab : dict string) :
  (forall path, In path (keys annotations_dir) -> strain_of_path path <> strain) ->
  In (sample, strain_relab) relab ->
  In (strain, abundance) strain_relab ->
  exists e, main_loop relab annotations_dir annotation_type = Raise e.
Proof.
  intros Hnone Hsample Hstrain. unfold main_loop.
  apply (for_each_raises _ _ _ Hsample). intros gr. simpl.
  apply (for_each_raises _ _ _ Hstrain). intros gr1. simpl.
  unfold find_annotation. rewrite filter_none.
  - now exists IndexError.
  - intros path Hpath. apply String.eqb_neq. now apply Hnone.
Qed.

(** X8: when a sample lists a strain whose abundance is not a number and
    whose annotation list holds an identifier other than [gene], the loops
    of [main] end with an exception. *)
Theorem unparsable_abundance_is_fatal
  (relab : dict (dict string)) (sample strain abundance : string)
  (strain_relab : dict string) (genes : list string) :
  In (sample, strain_relab) relab ->
  In (strain, abundance) strain_relab ->
  strain_annotation annotations_dir annotation_type strain = Ok genes ->
  Exists (fun g => g <> "gene") genes ->
  float_of_str abundance = None ->
  exists e, main_loop relab annotations_dir annotation_type = Raise e.
Proof.
  intros Hsample Hstrain Hgenes Hsome Hparse.
  destruct (main_loop relab annotations_dir annotation_type) as [gr|e] eqn:Hrun;
    [|now exists e].
  exfalso.
  assert (Hok : pairs_ok annotations_dir annotation_type relab)
    by (apply main_loop_ok; now exists gr).
  unfold pairs_ok in Hok. rewrite Forall_forall in Hok.
  specialize (Hok _ Hsample). simpl in Hok. rewrite Forall_forall in Hok.
  specialize (Hok _ Hstrain). unfold pair_ok in Hok. simpl in Hok.
  rewrite Hgenes in Hok. destruct Hok as [Hall|[s Hs]].
  - apply Exists_exists in Hsome. destruct Hsome as (g & Hg & Hne).
    rewrite Forall_forall in Hall. now apply Hne, Hall.
  - unfold share in Hs. rewrite Hparse in Hs. discriminate.
Qed.

(** X9: a strain whose identifiers are all [gene] leaves the totals as they
    are, and its abundance is not read: the iteration goes through even when
    the abundance is not a number. *)
Theorem skipped_strain_changes_nothing
  (sample strain abundance : string) (genes : list string)
  (gene_relabs : dict (dict num)) :
  strain_annotation annotations_dir annotation_type strain = Ok genes ->
  Forall (fun g => g = "gene") genes ->
  strain_step annotations_dir annotation_type sample gene_relabs (strain, abundance)
    = Ok gene_relabs.
Proof.
  intros Hgenes Hall. rewrite strain_step_eq. simpl. rewrite Hgenes. cbn [bind].
  generalize (List.length genes). intros n. clear Hgenes.
  induction Hall as [|g rest -> _ IH]; simpl; [reflexivity|]. exact IH.
Qed.

(** X10: in any arithmetic, the result of the loops has an entry for a
    sample and an identifier exactly when the identifier is not [gene] and
    stands in the annotation list of a strain listed under the sample. *)
Theorem entries_are_the_observed_identifiers
  (relab : dict (dict string)) (gene_relabs : dict (dict num)) :
  NoDup (keys relab) ->
  main_loop relab annotations_dir annotation_type = Ok gene_relabs ->
  forall sample g,
    (exists v, dict_get2 gene_relabs sample g = Some v)
    <-> g <> "gene"
        /\ observed annotations_dir annotation_type relab sample g = true.
Proof.
  intros Hnd Hrun sample g.
  assert (Hok : pairs_ok annotations_dir annotation_type relab)
    by (apply main_loop_ok; now exists gene_relabs).
  rewrite (main_loop_lookup _ _ _ _ Hrun sample g).
  rewrite (selected_shares_NoDup _ _ _ _ _ Hnd).
  destruct (String.eqb_spec g "gene") as [->|Hg].
  - split; [intros [v Hv]; discriminate | intros [H _]; now destruct H].
  - assert (Hstrains : Forall (pair_ok annotations_dir annotation_type)
                         (dict_default [] relab sample)).
    { destruct (dict_default_cases relab sample []) as [->|Hin]; [constructor|].
      unfold pairs_ok in Hok. rewrite Forall_forall in Hok. exact (Hok _ Hin). }
    pose proof (sample_shares_nil_iff annotations_dir annotation_type g _ Hg Hstrains)
      as Hnil.
    unfold total, sample_shares, observed.
    destruct (existsb _ _).
    + split; [intros _; now split|]. intros _.
      destruct (add_shares None _) as [v|] eqn:E; [now exists v|].
      apply add_shares_none in E. apply Hnil in E. discriminate.
    + rewrite (proj2 Hnil eq_refl). simpl.
      split; [intros [v Hv]; discriminate | intros [_ H]; discriminate].
Qed.

(** X11: the totals of a sample depend on the strains listed under that
    sample only: two abundance tables that agree on a sample give it the
    same totals, whatever their other samples. *)
Theorem samples_are_independent
  (relab relab' : dict (dict string)) (gene_relabs gene_relabs' : dict (dict num))
  (sample : string) :
  NoDup (keys relab) ->
  NoDup (keys relab') ->
  dict_get relab sample = dict_get relab' sample ->
  main_loop relab annotations_dir annotation_type = Ok gene_relabs ->
  main_loop relab' annotations_dir annotation_type = Ok gene_relabs' ->
  forall g, dict_get2 gene_relabs sample g = dict_get2 gene_relabs' sample g.
Proof.
  intros Hnd Hnd' Hsame Hrun Hrun' g.
  rewrite (main_loop_lookup _ _ _ _ Hrun sample g).
  rewrite (main_loop_lookup _ _ _ _ Hrun' sample g).
  rewrite (selected_shares_NoDup _ _ _ _ _ Hnd).
  rewrite (selected_shares_NoDup _ _ _ _ _ Hnd').
  unfold sample_shares, dict_default. now rewrite Hsame.
Qed.

End IterationErrors.

(** ** main: the samples of the result *)

Lemma for_each_invariant_In {A S : Type} (body : S -> A -> result S) (P : S -> Prop)
  (l : list A) :
  (forall s x s', In x l -> P s -> body s x = Ok s' -> P s') ->
  forall s s', P s -> for_each body l s = Ok s' -> P s'.
Proof.
  induction l as [|x l IH]; intros Hbody s s' Hs; simpl.
  - now intros [= <-].
  - destruct (body s x) as [s1|] eqn:E; simpl; [|discriminate].
    apply IH.
    + intros s0 y s0' Hy. apply Hbody. now right.
    + exact (Hbody s x s1 (or_introl eq_refl) Hs E).
Qed.

Lemma dict_set_In {V : Type} (d : dict V) (k : string) (v : V) (x : string * V) :
  In x (dict_set d k v) -> In x d \/ x = (k, v).
Proof.
  induction d as [|[k0 v0] d IH]; simpl.
  - intros [<-|[]]. now right.
  - destruct (String.eqb k0 k); simpl.
    + intros [<-|H]; [now right | left; now right].
    + intros [<-|H]; [left; now left|].
      destruct (IH H) as [H'|H']; [left; now right | now right].
Qed.

Lemma dict_set_nonempty {V : Type} (d : dict V) (k : string) (v : V) :
  dict_set d k v <> [].
Proof.
  destruct d as [|[k0 v0] d]; simpl; [discriminate|].
  destruct (String.eqb k0 k); discriminate.
Qed.

Section ResultSamples.

Context {F : PyFloat}.

Variables (annotations_dir : directory) (annotation_type : string)
          (samples : list string).

Lemma well_kept_set2 (gene_relabs : dict (dict num)) (sample g : string) (v : num) :
  In sample samples -> well_kept samples gene_relabs ->
  well_kept samples (dict_set2 gene_relabs sample g v).
Proof.
  intros Hs [Hnd Hall]. unfold dict_set2. split.
  - now apply dict_set_keys_NoDup.
  - rewrite Forall_forall in *. intros x Hx.
    apply dict_set_In in Hx. destruct Hx as [Hx| ->]; [now apply Hall|].
    split; [exact Hs | apply dict_set_nonempty].
Qed.

Lemma strains_well_kept (sample : string) (strain_relab : dict string)
  (gene_relabs gene_relabs' : dict (dict num)) :
  In sample samples -> well_kept samples gene_relabs ->
  for_each (strain_step annotations_dir annotation_type sample) strain_relab gene_relabs
    = Ok gene_relabs' ->
  well_kept samples gene_relabs'.
Proof.
  intros Hs. apply for_each_invariant. intros gr entry gr1 Hgr.
  rewrite strain_step_eq.
  destruct (strain_annotation _ _ _) as [genes|]; cbn [bind]; [|discriminate].
  revert Hgr. apply for_each_invariant. intros gr0 g gr2 Hgr0.
  rewrite add_gene_eq. destruct (String.eqb g "gene"); [now intros [= <-]|].
  destruct (share _ _) as [s|]; cbn [bind]; [|discriminate].
  intros [= <-]. now apply well_kept_set2.
Qed.

End ResultSamples.

(** X14: the samples of the result of the loops are samples of the
    abundance table, none stands twice, and each of them has at least one
    total: a sample all of whose identifiers are skipped is not in the
    result at all. *)
Theorem result_samples {F : PyFloat} (relab : dict (dict string))
  (annotations_dir : directory) (annotation_type : string)
  (gene_relabs : dict (dict num)) :
  main_loop relab annotations_dir annotation_type = Ok gene_relabs ->
  NoDup (keys gene_relabs)
  /\ (forall sample, In sample (keys gene_relabs) -> In sample (keys relab))
  /\ forall sample inner, In (sample, inner) gene_relabs -> inner <> [].
Proof.
  intros Hrun.
  assert (H : well_kept (keys relab) gene_relabs).
  { revert Hrun. unfold main_loop.
    apply (for_each_invariant_In _ (well_kept (keys relab))).
    - intros gr [sample strains] gr' Hin Hgr. simpl.
      apply strains_well_kept; [|exact Hgr].
      unfold keys. now apply (in_map fst) in Hin.
    - split; constructor. }
  destruct H as [Hnd Hall]. rewrite Forall_forall in Hall.
  split; [exact Hnd|]. split.
  - intros sample Hin. unfold keys in Hin. apply in_map_iff in Hin.
    destruct Hin as (e & <- & He). now apply Hall.
  - intros sample inner Hin. exact (proj2 (Hall _ Hin)).
Qed.

Lemma result_samples_header_only :
  exists gene_relabs,
    main_loop (F := float64) KB1_only header_only "gene" = Ok gene_relabs
    /\ NoDup (keys gene_relabs)
    /\ ~ In "sample1" (keys gene_relabs).
Proof.
  destruct (main_loop (F := float64) KB1_only header_only "gene") as [gr|] eqn:Hrun;
    [|vm_compute in Hrun; discriminate].
  exists gr. split; [reflexivity|].
  destruct (result_samples KB1_only header_only "gene" gr Hrun) as (Hnd & _ & _).
  split; [exact Hnd|].
  vm_compute in Hrun. injection Hrun as <-. intros [].
Defined.

(** ** check_files: what it compares *)

Lemma prefix_count (c : ascii) (old : string) :
  Str.count c old = 0 ->
  forall s, String.prefix old s = true ->
            Str.count c s = Str.count c (string_drop (String.length old) s).
Proof.
  induction old as [|a old IH]; intros Hc s Hp; [reflexivity|].
  destruct s as [|b s]; simpl in Hp; [discriminate|].
  destruct (ascii_dec a b) as [<-|]; [|discriminate].
  simpl in Hc. destruct (Ascii.eqb a c) eqn:E; [discriminate|].
  simpl. rewrite E. simpl. apply IH; [exact Hc | exact Hp].
Qed.

Lemma count_replace_from (c : ascii) (old : string) :
  Str.count c old = 0 -> old <> "" ->
  forall s k,
    Str.count c (Str.replace_from old "" k s) = Str.count c (string_drop k s).
Proof.
  intros Hc Hne. induction s as [|a s IH]; intros k.
  - now destruct k.
  - destruct k as [|k]; [|exact (IH k)].
    cbn [Str.replace_from string_drop].
    destruct (String.prefix old (String a s)) eqn:Hp.
    + rewrite (prefix_count c old Hc _ Hp).
      destruct old as [|b old]; [contradiction|].
      cbn [String.append String.length string_drop Nat.sub]. rewrite Nat.sub_0_r. apply IH.
    + cbn [Str.count]. now rewrite (IH 0).
Qed.

Lemma count_slash_replace (p : string) :
  Str.count Str.slash (Str.replace ".tsv" "" p) = Str.count Str.slash p.
Proof.
  unfold Str.replace. now rewrite count_replace_from.
Qed.

(** X15: [check_files] is silent exactly when the first field of every data
    row is, character for character, one of the paths of the directory less
    every [.tsv] in them. *)
Theorem check_files_silent_iff (relab_file : file) (glob_result : list string) :
  check_files relab_file glob_result = []
  <-> Forall (fun l => In (hd EmptyString (fields l))
                         (map (Str.replace ".tsv" "") glob_result))
        (readlines_after_first relab_file).
Proof.
  unfold check_files.
  induction (readlines_after_first relab_file) as [|l rest IH]; simpl.
  - split; [constructor | reflexivity].
  - destruct (member _ _) eqn:E.
    + apply member_In in E. rewrite IH. split.
      * intros H. now constructor.
      * intros H. now inversion H.
    + split; [discriminate|]. intros H. inversion H as [|? ? Hl _]; subst.
      apply member_In in Hl. congruence.
Qed.

(** X16: when the paths of the directory hold a slash, as those that
    [glob.glob(annotations_dir + "/*.tsv")] returns do, and the strain of the
    first data row holds none, [check_files] reports that strain as not
    found and nothing else, whatever the files of the directory are. *)
Theorem check_files_warns_first_strain
  (header_line first : string) (rest glob_result : list string) :
  Str.count Str.slash (hd EmptyString (fields first)) = 0 ->
  Forall (fun path => Str.count Str.slash path <> 0) glob_result ->
  check_files (header_line :: first :: rest) glob_result =
    [String.append "strain "
       (String.append (hd EmptyString (fields first)) " annotation file not found")].
Proof.
  intros Hstrain Hpaths. unfold check_files. simpl.
  destruct (member _ _) eqn:E; [|reflexivity].
  exfalso. apply member_In in E. apply in_map_iff in E.
  destruct E as (path & Hpath & Hin).
  rewrite Forall_forall in Hpaths. apply (Hpaths _ Hin).
  now rewrite <- count_slash_replace, Hpath.
Qed.

Lemma check_files_warns_in_scenario :
  check_files (relab scenario) (keys (annotations_dir scenario)) =
    ["strain KB1 annotation file not found"].
Proof.
  apply (check_files_warns_first_strain (Str.line ["strain"; "sample1"])
           (Str.line ["KB1"; "0.6"]) [Str.line ["YL32"; "0.4"]]
           ["annotations/KB1.tsv"; "annotations/YL32.tsv"]).
  - reflexivity.
  - repeat constructor; vm_compute; discriminate.
Defined.

(** ** main: an abundance table with no data row *)

(** X17: for an accepted annotation type and an abundance table that has a
    header at most, [main] reads no annotation, warns of nothing and writes
    a table that has the header [gene] alone, whatever the directory. *)
Theorem main_without_data_rows {F : PyFloat} (a : args) :
  member (annotation_type a) annotation_types = true ->
  readlines_after_first (relab a) = [] ->
  main a = Ok ([], mkTable ["gene"] []).
Proof.
  intros Hty Hrows. unfold main, check_files, read_relab.
  rewrite Hty, Hrows. reflexivity.
Qed.

Lemma main_without_data_rows_example :
  main (F := float64) (mkArgs [Str.line ["strain"; "sample1"]] [] "cog")
    = Ok ([], mkTable ["gene"] []).
Proof.
  apply (main_without_data_rows (mkArgs [Str.line ["strain"; "sample1"]] [] "cog"));
    reflexivity.
Defined.

(** ** The further properties, on the scenario *)

Lemma missing_annotation_file_example :
  exists e,
    main_loop (F := float64) relab_unknown_strain (annotations_dir scenario) "gene"
      = Raise e.
Proof.
  apply (missing_annotation_file_is_fatal (F := float64) (annotations_dir scenario) "gene"
           relab_unknown_strain "sample1" "I46" "0.4"
           [("KB1", "0.6"); ("I46", "0.4")]).
  - intros path [<-|[<-|[]]]; vm_compute; discriminate.
  - now left.
  - right. now left.
Defined.

Lemma unparsable_abundance_example :
  exists e,
    main_loop (F := float64) relab_not_a_number (annotations_dir scenario) "gene"
      = Raise e.
Proof.
  apply (unparsable_abundance_is_fatal (F := float64) (annotations_dir scenario) "gene"
           relab_not_a_number "sample1" "YL32" "n/a"
           [("KB1", "0.6"); ("YL32", "n/a")] ["luxS"]).
  - now left.
  - right. now left.
  - reflexivity.
  - left. discriminate.
  - reflexivity.
Defined.

Lemma skipped_strain_example :
  strain_step (F := float64) header_only "gene" "sample1" [] ("KB1", "n/a") = Ok [].
Proof.
  apply (skipped_strain_changes_nothing (F := float64) header_only "gene"
           "sample1" "KB1" "n/a" ["gene"] []).
  - reflexivity.
  - repeat constructor.
Defined.

Lemma entries_example :
  exists gene_relabs,
    main_loop (F := float64) scenario_relab (annotations_dir scenario) "gene"
      = Ok gene_relabs
    /\ (exists v, dict_get2 gene_relabs "sample1" "alr" = Some v)
    /\ ~ (exists v, dict_get2 gene_relabs "sample1" "hcxA" = Some v).
Proof.
  destruct (main_loop (F := float64) scenario_relab (annotations_dir scenario) "gene")
    as [gr|] eqn:Hrun; [|vm_compute in Hrun; discriminate].
  exists gr. split; [reflexivity|].
  pose proof (entries_are_the_observed_identifiers (F := float64)
                (annotations_dir scenario) "gene" scenario_relab gr
                scenario_relab_NoDup Hrun) as H.
  split.
  - apply H. split; [discriminate | reflexivity].
  - intros Habs. apply H in Habs. destruct Habs as [_ Hobs].
    vm_compute in Hobs. discriminate.
Defined.

Lemma samples_are_independent_example :
  exists gene_relabs gene_relabs',
    main_loop (F := float64) scenario_relab (annotations_dir scenario) "gene"
      = Ok gene_relabs
    /\ main_loop (F := float64) two_samples (annotations_dir scenario) "gene"
         = Ok gene_relabs'
    /\ forall g, dict_get2 gene_relabs "sample1" g = dict_get2 gene_relabs' "sample1" g.
Proof.
  destruct (main_loop (F := float64) scenario_relab (annotations_dir scenario) "gene")
    as [gr|] eqn:Hrun; [|vm_compute in Hrun; discriminate].
  destruct (main_loop (F := float64) two_samples (annotations_dir scenario) "gene")
    as [gr'|] eqn:Hrun'; [|vm_compute in Hrun'; discriminate].
  exists gr, gr'. split; [reflexivity|]. split; [reflexivity|].
  exact (samples_are_independent (F := float64) (annotations_dir scenario) "gene"
           scenario_relab two_samples gr gr' "sample1"
           scenario_relab_NoDup two_samples_NoDup eq_refl Hrun Hrun').
Defined.
